(** * Conversation session manager of [src/app/page.tsx]

    A shallow embedding of the three request flows of the [Home]
    component (chat, per-message translation, document analysis) and of
    the React state they act on.

    - JavaScript strings are sequences of UTF-16 code units.
    - The ten [useState] cells of the component form the record
      [Session]; every [setX] call is a function [Session -> Session].
    - An [async] function is a finite tree of effects ([Proc]): state
      updates, requests to a remote collaborator, and the suspension
      that every other [await] causes.  [try]/[catch]/[finally] are
      functions on such trees.
    - The remote services are not part of the program.  Their answers
      are an input of the model (a [World]); every theorem quantifies
      over all of them. *)

From Stdlib Require Import NArith ZArith Ascii String.
From stdpp Require Import base decidable option numbers list.

Set Default Proof Using "Type".
Open Scope list_scope.

(** ** Strings *)

Module Js.

(** A UTF-16 code unit. *)
Definition char16 := N.

Definition jsstring := list char16.

(** An ASCII literal of the source, as code units. *)
Definition lit (s : String.string) : jsstring :=
  List.map N_of_ascii (list_ascii_of_string s).

(** [WhiteSpace] and [LineTerminator] of ECMAScript, the code units
    that [String.prototype.trim] removes: TAB, LF, VT, FF, CR, SP,
    NBSP, U+1680, U+2000..U+200A, LS, PS, U+202F, U+205F, U+3000 and
    the byte order mark. *)
Definition isWhiteSpace (c : char16) : bool :=
  ((9 <=? c) && (c <=? 13) ||
   (c =? 32) || (c =? 160) || (c =? 5760) ||
   (8192 <=? c) && (c <=? 8202) ||
   (c =? 8232) || (c =? 8233) || (c =? 8239) || (c =? 8287) ||
   (c =? 12288) || (c =? 65279))%N.

Fixpoint trimStart (s : jsstring) : jsstring :=
  match s with
  | [] => []
  | c :: s' => if isWhiteSpace c then trimStart s' else s
  end.

Definition trimEnd (s : jsstring) : jsstring :=
  rev (trimStart (rev s)).

(** [s.trim()] *)
Definition trim (s : jsstring) : jsstring := trimEnd (trimStart s).

(** Truthiness of a string value: every string but the empty one. *)
Definition truthy (s : jsstring) : bool :=
  match s with [] => false | _ :: _ => true end.

(** Truthiness of a value of type [string | undefined] (or
    [string | null]). *)
Definition truthy_opt (o : option jsstring) : bool :=
  match o with Some s => truthy s | None => false end.

(** [a || b] where [a : string | null | undefined]. *)
Definition or_else (a : option jsstring) (b : jsstring) : jsstring :=
  match a with
  | Some s => if truthy s then s else b
  | None => b
  end.

(** [a === b] on strings. *)
Definition strict_eq (a b : jsstring) : bool := bool_decide (a = b).

(** Surrogate code units: U+D800..U+DBFF lead, U+DC00..U+DFFF trail. *)
Definition isHighSurrogate (c : char16) : bool :=
  ((55296 <=? c) && (c <=? 56319))%N.

Definition isLowSurrogate (c : char16) : bool :=
  ((56320 <=? c) && (c <=? 57343))%N.

(** [s.isWellFormed()]: every lead surrogate is followed by a trail
    surrogate and every trail surrogate follows a lead one.  These are
    the strings that [encodeURIComponent] accepts; on any other it
    throws a [URIError]. *)
Fixpoint isWellFormed (s : jsstring) : bool :=
  match s with
  | [] => true
  | c :: s' =>
      if isHighSurrogate c then
        match s' with
        | d :: s'' => isLowSurrogate d && isWellFormed s''
        | [] => false
        end
      else negb (isLowSurrogate c) && isWellFormed s'
  end.

End Js.

Export Js.

(** ** Data model *)

(** [interface Message] *)
Record Message := {
  role : jsstring;
  content : jsstring;
  translatedContent : option jsstring
}.

(** [interface Lawyer] *)
Record Lawyer := {
  name : jsstring;
  specialization : jsstring;
  phone : jsstring;
  email : jsstring
}.

(** The state cells of [Home], one field per [useState]. *)
Record Session := {
  messages : list Message;
  inputMessage : jsstring;
  isLoading : bool;
  error : option jsstring;
  isMenuOpen : bool;
  selectedLanguage : jsstring;
  documentAnalysis : option jsstring;
  isAnalyzing : bool;
  lawyers : list Lawyer;
  showLawyers : bool
}.

(** The state of the first render. *)
Definition greeting : Message :=
  {| role := lit "assistant";
     content := lit "Hello! How can I assist you with the Indian Department of Justice today?";
     translatedContent := None |}.

Definition initial : Session :=
  {| messages := [greeting];
     inputMessage := [];
     isLoading := false;
     error := None;
     isMenuOpen := false;
     selectedLanguage := lit "en";
     documentAnalysis := None;
     isAnalyzing := false;
     lawyers := [];
     showLawyers := false |}.

(** *** State setters

    [setMessages] is used in both of React's forms: with an updater
    function of the pending state ([setMessages(prev => ...)]) and with
    a value ([setMessages(v)], here [setMessages (fun _ => v)]). *)

Definition setMessages (f : list Message -> list Message) (s : Session) : Session :=
  {| messages := f (messages s);
     inputMessage := inputMessage s;
     isLoading := isLoading s;
     error := error s;
     isMenuOpen := isMenuOpen s;
     selectedLanguage := selectedLanguage s;
     documentAnalysis := documentAnalysis s;
     isAnalyzing := isAnalyzing s;
     lawyers := lawyers s;
     showLawyers := showLawyers s |}.

Definition setInputMessage (v : jsstring) (s : Session) : Session :=
  {| messages := messages s;
     inputMessage := v;
     isLoading := isLoading s;
     error := error s;
     isMenuOpen := isMenuOpen s;
     selectedLanguage := selectedLanguage s;
     documentAnalysis := documentAnalysis s;
     isAnalyzing := isAnalyzing s;
     lawyers := lawyers s;
     showLawyers := showLawyers s |}.

Definition setIsLoading (v : bool) (s : Session) : Session :=
  {| messages := messages s;
     inputMessage := inputMessage s;
     isLoading := v;
     error := error s;
     isMenuOpen := isMenuOpen s;
     selectedLanguage := selectedLanguage s;
     documentAnalysis := documentAnalysis s;
     isAnalyzing := isAnalyzing s;
     lawyers := lawyers s;
     showLawyers := showLawyers s |}.

Definition setError (v : option jsstring) (s : Session) : Session :=
  {| messages := messages s;
     inputMessage := inputMessage s;
     isLoading := isLoading s;
     error := v;
     isMenuOpen := isMenuOpen s;
     selectedLanguage := selectedLanguage s;
     documentAnalysis := documentAnalysis s;
     isAnalyzing := isAnalyzing s;
     lawyers := lawyers s;
     showLawyers := showLawyers s |}.

Definition setSelectedLanguage (v : jsstring) (s : Session) : Session :=
  {| messages := messages s;
     inputMessage := inputMessage s;
     isLoading := isLoading s;
     error := error s;
     isMenuOpen := isMenuOpen s;
     selectedLanguage := v;
     documentAnalysis := documentAnalysis s;
     isAnalyzing := isAnalyzing s;
     lawyers := lawyers s;
     showLawyers := showLawyers s |}.

Definition setDocumentAnalysis (v : option jsstring) (s : Session) : Session :=
  {| messages := messages s;
     inputMessage := inputMessage s;
     isLoading := isLoading s;
     error := error s;
     isMenuOpen := isMenuOpen s;
     selectedLanguage := selectedLanguage s;
     documentAnalysis := v;
     isAnalyzing := isAnalyzing s;
     lawyers := lawyers s;
     showLawyers := showLawyers s |}.

Definition setIsAnalyzing (v : bool) (s : Session) : Session :=
  {| messages := messages s;
     inputMessage := inputMessage s;
     isLoading := isLoading s;
     error := error s;
     isMenuOpen := isMenuOpen s;
     selectedLanguage := selectedLanguage s;
     documentAnalysis := documentAnalysis s;
     isAnalyzing := v;
     lawyers := lawyers s;
     showLawyers := showLawyers s |}.

(** ** Remote collaborators *)

(** The values the program throws or receives as rejection reasons.
    Only their identity matters: the handlers log them and pass them
    on, they never inspect them. *)
Inductive Exn :=
| GroqNotInitialized                      (* new Error("Groq client is not initialized") *)
| HttpError (status : Z)                  (* new Error(`HTTP error! status: ${response.status}`) *)
| TranslationApiError (responseStatus : Z) (* new Error(`Translation API error: ${data.responseStatus}`) *)
| UploadFailed                            (* new Error('Failed to upload image') *)
| UndefinedProperty                       (* TypeError: reading a property of undefined *)
| URIError                                (* thrown by encodeURIComponent on an unpaired surrogate *)
| Rejection (reason : jsstring).          (* the reason of a promise that a collaborator rejected *)

(** A settled promise. *)
Inductive Settled (A : Type) :=
| Fulfilled (a : A)
| Rejected (reason : jsstring).
Arguments Fulfilled {A} a.
Arguments Rejected {A} reason.

(** The client object built at module load when [window] exists. *)
Record Groq := {
  apiKey : option jsstring;
  dangerouslyAllowBrowser : bool
}.

(** The part of a chat completion that the program reads:
    [chatCompletion.choices[0]?.message?.content]. *)
Record ChatCompletionMessage := { message_content : option jsstring }.
Record Choice := { message : option ChatCompletionMessage }.
Record ChatCompletion := { choices : list Choice }.

Definition firstContent (c : ChatCompletion) : option jsstring :=
  ch ← head (choices c); m ← message ch; message_content m.

(** A [fetch] response.  [json] is what the promise of
    [response.json()] settles to. *)
Record Response (D : Type) := {
  ok : bool;
  status : Z;
  json : Settled D
}.
Arguments ok {D} r.
Arguments status {D} r.
Arguments json {D} r.

(** Body of the translation service, in the shape the service
    documents: a numeric [data.responseStatus] and a string
    [data.responseData.translatedText]. *)
Record TranslationData := {
  responseStatus : Z;
  translatedText : jsstring
}.

(** Body of the upload endpoint: [data.url]. *)
Record UploadData := { url : jsstring }.

Record File := {
  fileName : jsstring;
  fileBytes : list N
}.

(** The requests that leave the program. *)
Inductive Request :=
| GroqChat (context : list Message)
    (* groq.chat.completions.create({messages, model: "llama3-8b-8192",
       max_tokens: 1000, temperature: 0.5, top_p: 1, stream: false}) *)
| GroqVision (imageUrl : jsstring)
    (* groq.chat.completions.create with the fixed instruction, the
       image url and model "llava-v1.5-7b-4096-preview" *)
| FetchTranslation (text targetLang : jsstring)
    (* fetch(url) for the url of line 74,
       `https://api.mymemory.translated.net/get?q=${encodeURIComponent(text)}&langpair=en|${targetLang}`,
       which exists only for a well-formed [text] *)
| FetchUpload (file : File).
    (* fetch('/api/upload', {method: 'POST', body: formData}) *)

(** What the promise of a request is fulfilled with. *)
Definition Payload (r : Request) : Type :=
  match r with
  | GroqChat _ | GroqVision _ => ChatCompletion
  | FetchTranslation _ _ => Response TranslationData
  | FetchUpload _ => Response UploadData
  end.

(** The outside world: how each request settles. *)
Definition World := forall r : Request, Settled (Payload r).

(** ** Asynchronous code as effect trees *)

Inductive Proc (A : Type) : Type :=
| Ret (a : A)                                        (* normal completion *)
| Throw (e : Exn)                                    (* abrupt completion *)
| Upd (f : Session -> Session) (k : Proc A)          (* a call of a state setter *)
| Call (r : Request) (k : Settled (Payload r) -> Proc A)
                                                     (* a request, awaited *)
| Yield (k : Proc A).                                (* any other await *)
Arguments Ret {A} a.
Arguments Throw {A} e.
Arguments Upd {A} f k.
Arguments Call {A} r k.
Arguments Yield {A} k.

Fixpoint bind {A B : Type} (p : Proc A) (f : A -> Proc B) : Proc B :=
  match p with
  | Ret a => f a
  | Throw e => Throw e
  | Upd g k => Upd g (bind k f)
  | Call r k => Call r (fun x => bind (k x) f)
  | Yield k => Yield (bind k f)
  end.

Declare Scope proc_scope.
Delimit Scope proc_scope with proc.
Bind Scope proc_scope with Proc.
Notation "x <- p ;; q" := (bind p (fun x => q))
  (at level 100, p at next level, right associativity) : proc_scope.
Notation "p ;; q" := (bind p (fun _ => q))
  (at level 100, right associativity) : proc_scope.
Open Scope proc_scope.

(** A setter call as a statement. *)
Definition upd (f : Session -> Session) : Proc unit := Upd f (Ret tt).

(** The value of [await] on a settled promise. *)
Definition settle {A : Type} (x : Settled A) : Proc A :=
  match x with
  | Fulfilled a => Ret a
  | Rejected reason => Throw (Rejection reason)
  end.

(** [await] of a collaborator's promise: the request is issued and the
    caller is suspended until it settles. *)
Definition request (r : Request) : Proc (Payload r) := Call r settle.

(** [await] of a promise that does not stand for a request (here
    [response.json()]): the caller is suspended, then gets the value. *)
Definition awaitValue {A : Type} (x : Settled A) : Proc A := Yield (settle x).

(** [await f(...)] for an [async] function [f] of the program: the body
    of [f] runs, and when it completes, normally or not, the caller
    resumes one turn later with its result. *)
Fixpoint await {A : Type} (p : Proc A) : Proc A :=
  match p with
  | Ret a => Yield (Ret a)
  | Throw e => Yield (Throw e)
  | Upd f k => Upd f (await k)
  | Call r k => Call r (fun x => await (k x))
  | Yield k => Yield (await k)
  end.

(** [try { p } catch (error) { h error }] *)
Fixpoint try_catch {A : Type} (p : Proc A) (h : Exn -> Proc A) : Proc A :=
  match p with
  | Ret a => Ret a
  | Throw e => h e
  | Upd f k => Upd f (try_catch k h)
  | Call r k => Call r (fun x => try_catch (k x) h)
  | Yield k => Yield (try_catch k h)
  end.

(** [try { p } finally { c }] *)
Fixpoint finally {A : Type} (p : Proc A) (c : Proc unit) : Proc A :=
  match p with
  | Ret a => c ;; Ret a
  | Throw e => c ;; Throw e
  | Upd f k => Upd f (finally k c)
  | Call r k => Call r (fun x => finally (k x) c)
  | Yield k => Yield (finally k c)
  end.

(** *** Running a handler *)

Inductive Outcome (A : Type) :=
| Returned (a : A)
| Threw (e : Exn).
Arguments Returned {A} a.
Arguments Threw {A} e.

Record Result (A : Type) := {
  final : Session;          (* the state when the handler has finished *)
  issued : list Request;    (* the requests it sent, in order *)
  outcome : Outcome A       (* how its promise settled *)
}.
Arguments final {A} r.
Arguments issued {A} r.
Arguments outcome {A} r.

(** [run w p s]: [p] runs to completion from state [s] in world [w],
    and nothing else touches the state meanwhile. *)
Fixpoint run {A : Type} (w : World) (p : Proc A) (s : Session) : Result A :=
  match p with
  | Ret a => {| final := s; issued := []; outcome := Returned a |}
  | Throw e => {| final := s; issued := []; outcome := Threw e |}
  | Upd f k => run w k (f s)
  | Call r k =>
      let res := run w (k (w r)) s in
      {| final := final res; issued := r :: issued res; outcome := outcome res |}
  | Yield k => run w k s
  end.

(** [sync p s]: the synchronous prefix of [p].  It gives the state at
    the moment [p] first gives up control (at its first [await], or at
    its end) and what is left of [p] then. *)
Fixpoint sync {A : Type} (p : Proc A) (s : Session) : Session * Proc A :=
  match p with
  | Upd f k => sync k (f s)
  | _ => (s, p)
  end.

(** Is the code waiting at an [await]? *)
Definition suspended {A : Type} (p : Proc A) : bool :=
  match p with
  | Call _ _ | Yield _ => true
  | _ => false
  end.

(** ** The program *)

(** The fixed texts of the source. *)
Definition chatFallback : jsstring :=
  lit "I'm sorry, I couldn't generate a response.".
Definition visionFallback : jsstring :=
  lit "I'm sorry, I couldn't analyze the document.".
Definition chatErrorText : jsstring :=
  lit "An error occurred while getting the AI response. Please try again.".
Definition translationErrorText : jsstring :=
  lit "Failed to translate the message. Please try again.".
Definition analysisErrorText : jsstring :=
  lit "An error occurred while analyzing the document. Please try again.".

(** The object literals of the handlers. *)

(** [{ role: 'user', content: inputMessage }] *)
Definition userMessage (inputMessage : jsstring) : Message :=
  {| role := lit "user"; content := inputMessage; translatedContent := None |}.

(** [{ role: 'assistant', content: aiResponse }] *)
Definition botMessage (aiResponse : jsstring) : Message :=
  {| role := lit "assistant"; content := aiResponse; translatedContent := None |}.

(** [{ ...messageToTranslate, translatedContent: messageToTranslate.content,
       content: translatedContent }] *)
Definition translatedMessage (messageToTranslate : Message) (translated : jsstring)
  : Message :=
  {| role := role messageToTranslate;
     content := translated;
     translatedContent := Some (content messageToTranslate) |}.

(** The destructuring swap of lines 147-148,
    [[m.content, m.translatedContent] = [m.translatedContent!, m.content]].
    It is executed only where [m.translatedContent] is truthy, so the
    non-null assertion holds there and the default is never used. *)
Definition swapTranslation (m : Message) : Message :=
  {| role := role m;
     content := default [] (translatedContent m);
     translatedContent := Some (content m) |}.

Section Home.

(** The module-level [let groq: Groq | null]: a client when the
    module was loaded in a browser, [null] otherwise. *)
Variable groq : option Groq.

(** [console.error] calls are left out: they touch neither the state
    nor a collaborator. *)

Definition getGroqChatCompletion (messages : list Message) : Proc jsstring :=
  match groq with
  | None => Throw GroqNotInitialized
  | Some _ =>
      try_catch
        (chatCompletion <- request (GroqChat messages) ;;
         Ret (or_else (firstContent chatCompletion) chatFallback))
        (fun error => Throw error)
  end.

Definition getGroqVisionAnalysis (imageUrl : jsstring) : Proc jsstring :=
  match groq with
  | None => Throw GroqNotInitialized
  | Some _ =>
      try_catch
        (chatCompletion <- request (GroqVision imageUrl) ;;
         Ret (or_else (firstContent chatCompletion) visionFallback))
        (fun error => Throw error)
  end.

(** Lines 72-90.  The url is built on line 74, before the [try]:
    [encodeURIComponent(text)] throws when [text] has an unpaired
    surrogate, and then nothing is fetched. *)
Definition translateText (text targetLang : jsstring) : Proc jsstring :=
  if negb (isWellFormed text) then Throw URIError else
  try_catch
    (response <- request (FetchTranslation text targetLang) ;;
     if negb (ok response) then Throw (HttpError (status response)) else
     data <- awaitValue (json response) ;;
     if negb (responseStatus data =? 200)%Z
     then Throw (TranslationApiError (responseStatus data))
     else Ret (translatedText data))
    (fun error => Throw error).

Definition uploadImage (file : File) : Proc jsstring :=
  try_catch
    (response <- request (FetchUpload file) ;;
     if negb (ok response) then Throw UploadFailed else
     data <- awaitValue (json response) ;;
     Ret (url data))
    (fun error => Throw error).

(** The handlers close over the state of the render they belong to:
    [c] below.  They read [c] and write through the setters.

    Message objects are held by value.  The swap in
    [handleTranslateMessage] writes to the object that the old and
    the new array share; the embedding records the new array, which
    is the state React holds after the call.  Value and object differ
    in one schedule only: a swap that runs while a translation
    started in an earlier render is still suspended.  The code's
    suspended handler then copies an array that holds the swapped
    object, the embedding's one the message as it was.  A handler run
    from start to end, and a suspended handler resumed after runs
    that swap nothing, behave alike in both; no statement below goes
    beyond these. *)

(** Lines 119-139.  [e.preventDefault()] has no effect on the state. *)
Definition handleSendMessage (c : Session) : Proc unit :=
  if negb (truthy (trim (inputMessage c))) || isLoading c then Ret tt else
  let userMessage := userMessage (inputMessage c) in
  upd (setMessages (fun prevMessages => prevMessages ++ [userMessage])) ;;
  upd (setInputMessage []) ;;
  upd (setIsLoading true) ;;
  upd (setError None) ;;
  finally
    (try_catch
       (aiResponse <- await (getGroqChatCompletion (messages c ++ [userMessage])) ;;
        let botMessage := botMessage aiResponse in
        upd (setMessages (fun prevMessages => prevMessages ++ [botMessage])))
       (fun error => upd (setError (Some chatErrorText))))
    (upd (setIsLoading false)).

(** Lines 141-165.  [index] is the position that [messages.map] hands
    to the button of a message.  [messages[index]] is [undefined] when
    [index] is not the index of an element, and reading a property of
    it throws, outside of any [try]. *)
Definition handleTranslateMessage (c : Session) (index : nat) : Proc unit :=
  if strict_eq (selectedLanguage c) (lit "en") then Ret tt else
  match messages c !! index with
  | None => Throw UndefinedProperty
  | Some messageToTranslate =>
      if truthy_opt (translatedContent messageToTranslate) then
        let updatedMessages :=
          <[index := swapTranslation messageToTranslate]> (messages c) in
        upd (setMessages (fun _ => updatedMessages))
      else
        try_catch
          (translated <- await (translateText (content messageToTranslate)
                                              (selectedLanguage c)) ;;
           let updatedMessages :=
             <[index := translatedMessage messageToTranslate translated]>
               (messages c) in
           upd (setMessages (fun _ => updatedMessages)))
          (fun error => upd (setError (Some translationErrorText)))
  end.

(** Lines 167-184.  [files] is [event.target.files], a list of files
    or [null]; the handler takes [files?.[0]]. *)
Definition handleFileUpload (files : option (list File)) : Proc unit :=
  match files ≫= head with
  | None => Ret tt
  | Some file =>
      upd (setIsAnalyzing true) ;;
      upd (setError None) ;;
      finally
        (try_catch
           (imageUrl <- await (uploadImage file) ;;
            analysis <- await (getGroqVisionAnalysis imageUrl) ;;
            upd (setDocumentAnalysis (Some analysis)))
           (fun error => upd (setError (Some analysisErrorText))))
        (upd (setIsAnalyzing false))
  end.

(** The operations of the session manager: a handler of the render
    that shows [s], started in [s]. *)
Definition sendMessage (w : World) (s : Session) : Result unit :=
  run w (handleSendMessage s) s.

Definition toggleTranslation (w : World) (i : nat) (s : Session) : Result unit :=
  run w (handleTranslateMessage s i) s.

Definition analyzeDocument (w : World) (files : option (list File)) (s : Session)
  : Result unit :=
  run w (handleFileUpload files) s.

End Home.

(** How the promise of [p] settles in world [w].  It does not depend
    on the state: no code of the program reads the state after it has
    started (lemma [outcome_run]). *)
Fixpoint result {A : Type} (w : World) (p : Proc A) : Outcome A :=
  match p with
  | Ret a => Returned a
  | Throw e => Threw e
  | Upd _ k => result w k
  | Call r k => result w (k (w r))
  | Yield k => result w k
  end.

(** ** Results in sequence *)

(** [r] with the requests [rs] sent before it. *)
Definition after {A : Type} (rs : list Request) (r : Result A) : Result A :=
  {| final := final r; issued := rs ++ issued r; outcome := outcome r |}.

Definition andThen {A B : Type} (r : Result A) (k : A -> Session -> Result B)
  : Result B :=
  match outcome r with
  | Returned a => after (issued r) (k a (final r))
  | Threw e => {| final := final r; issued := issued r; outcome := Threw e |}
  end.

Definition orCatch {A : Type} (r : Result A) (h : Exn -> Session -> Result A)
  : Result A :=
  match outcome r with
  | Returned a => {| final := final r; issued := issued r; outcome := Returned a |}
  | Threw e => after (issued r) (h e (final r))
  end.

Definition andFinally {A : Type} (r : Result A) (c : Session -> Result unit)
  : Result A :=
  let rc := c (final r) in
  {| final := final rc;
     issued := issued r ++ issued rc;
     outcome := match outcome rc with
                | Returned _ => outcome r
                | Threw e => Threw e
                end |}.

(** The request a suspended handler is waiting for, if any. *)
Definition pendingRequest {A : Type} (p : Proc A) : option Request :=
  match p with
  | Call r _ => Some r
  | _ => None
  end.

(** The result of a handler that returned at once. *)
Definition untouched (s : Session) : Result unit :=
  {| final := s; issued := []; outcome := Returned tt |}.

(** ** Sessions and worlds used in the examples *)

Module Scenario.

Definition browserGroq : option Groq :=
  Some {| apiKey := Some (lit "gsk-test"); dangerouslyAllowBrowser := true |}.

(** A world from the four answers it gives. *)
Definition world
    (chat vision : Settled ChatCompletion)
    (translation : Settled (Response TranslationData))
    (upload : Settled (Response UploadData)) : World :=
  fun r =>
    match r return Settled (Payload r) with
    | GroqChat _ => chat
    | GroqVision _ => vision
    | FetchTranslation _ _ => translation
    | FetchUpload _ => upload
    end.

Definition completion (text : jsstring) : Settled ChatCompletion :=
  Fulfilled {| choices := [{| message := Some {| message_content := Some text |} |}] |}.

(** A 200 response of the translation service with the given
    application-level status and text. *)
Definition translation (appStatus : Z) (text : jsstring)
  : Settled (Response TranslationData) :=
  Fulfilled {| ok := true; status := 200;
               json := Fulfilled {| responseStatus := appStatus;
                                    translatedText := text |} |}.

Definition uploaded (location : jsstring) : Settled (Response UploadData) :=
  Fulfilled {| ok := true; status := 200;
               json := Fulfilled {| url := location |} |}.

(** "namaste" in Devanagari: U+0928 U+092E U+0938 U+094D U+0924 U+0947. *)
Definition namaste : jsstring := [2344; 2350; 2360; 2381; 2340; 2375]%N.

Definition noticeUrl : jsstring := lit "https://files.example/notice.png".

(** Every service answers. *)
Definition online : World :=
  world (completion (lit "Bail is...")) (completion (lit "A summons."))
        (translation 200 namaste) (uploaded noticeUrl).

(** No service can be reached. *)
Definition offline : World :=
  world (Rejected (lit "Failed to fetch")) (Rejected (lit "Failed to fetch"))
        (Rejected (lit "Failed to fetch")) (Rejected (lit "Failed to fetch")).

(** The services answer with HTTP errors. *)
Definition refusing : World :=
  world (Rejected (lit "429 Too Many Requests")) (Rejected (lit "429 Too Many Requests"))
        (Fulfilled {| ok := false; status := 503; json := Rejected (lit "Unexpected token") |})
        (Fulfilled {| ok := false; status := 413; json := Rejected (lit "Unexpected token") |}).

(** The translation service answers 200 with a non-success status in
    the body; the upload works and the vision service fails. *)
Definition degraded : World :=
  world (completion (lit "Bail is...")) (Rejected (lit "model not found"))
        (translation 403 (lit "INVALID LANGUAGE PAIR")) (uploaded noticeUrl).

(** The translation service answers with an empty text. *)
Definition silent : World :=
  world (completion (lit "Bail is...")) (completion (lit "A summons."))
        (translation 200 []) (uploaded noticeUrl).

Definition asking : Session := setInputMessage (lit "What is bail?") initial.

Definition hello : Message := botMessage (lit "Hello").

(** A transcript of one message, Hindi selected. *)
Definition hindi : Session :=
  setSelectedLanguage (lit "hi") (setMessages (fun _ => [hello]) initial).

(** [hindi] after one toggle in [online]. *)
Definition translated : Session :=
  setMessages (fun _ => [translatedMessage hello namaste]) hindi.

(** [hindi] after one toggle in [silent]: the text shown is empty and
    the original is kept as the cached translation. *)
Definition emptied : Session :=
  setMessages (fun _ => [translatedMessage hello []]) hindi.

Definition scan : File :=
  {| fileName := lit "notice.png"; fileBytes := [137; 80; 78; 71]%N |}.

(** A session that shows the report of an earlier analysis. *)
Definition analysed : Session :=
  setDocumentAnalysis (Some (lit "A summons.")) initial.

(** A lead surrogate on its own (U+D83D). *)
Definition lone : jsstring := [55357]%N.

(** The chat service answers with such a text. *)
Definition garbling : World :=
  world (completion lone) (completion (lit "A summons."))
        (translation 200 namaste) (uploaded noticeUrl).

(** The chat round of "What is bail?" in [garbling], then Hindi
    selected: the reply, at index 2, cannot be put in a url. *)
Definition garbled : Session :=
  setSelectedLanguage (lit "hi") (final (sendMessage browserGroq garbling asking)).

End Scenario.

(** ** The rest of the component *)

Definition setIsMenuOpen (v : bool) (s : Session) : Session :=
  {| messages := messages s;
     inputMessage := inputMessage s;
     isLoading := isLoading s;
     error := error s;
     isMenuOpen := v;
     selectedLanguage := selectedLanguage s;
     documentAnalysis := documentAnalysis s;
     isAnalyzing := isAnalyzing s;
     lawyers := lawyers s;
     showLawyers := showLawyers s |}.

Definition setLawyers (v : list Lawyer) (s : Session) : Session :=
  {| messages := messages s;
     inputMessage := inputMessage s;
     isLoading := isLoading s;
     error := error s;
     isMenuOpen := isMenuOpen s;
     selectedLanguage := selectedLanguage s;
     documentAnalysis := documentAnalysis s;
     isAnalyzing := isAnalyzing s;
     lawyers := v;
     showLawyers := showLawyers s |}.

Definition setShowLawyers (v : bool) (s : Session) : Session :=
  {| messages := messages s;
     inputMessage := inputMessage s;
     isLoading := isLoading s;
     error := error s;
     isMenuOpen := isMenuOpen s;
     selectedLanguage := selectedLanguage s;
     documentAnalysis := documentAnalysis s;
     isAnalyzing := isAnalyzing s;
     lawyers := lawyers s;
     showLawyers := v |}.

(** Lines 209-228. *)
Definition dummyLawyers : list Lawyer :=
  [ {| name := lit "Adv. Priya Sharma";
       specialization := lit "Criminal Law";
       phone := lit "+91 98765 43210";
       email := lit "priya.sharma@legaleagle.com" |};
    {| name := lit "Adv. Rajesh Patel";
       specialization := lit "Corporate Law";
       phone := lit "+91 87654 32109";
       email := lit "rajesh.patel@legalminds.com" |};
    {| name := lit "Adv. Anita Desai";
       specialization := lit "Family Law";
       phone := lit "+91 76543 21098";
       email := lit "anita.desai@familymatters.com" |} ].

(** Lines 208-231. *)
Definition handleSearchLawyers : Proc unit :=
  upd (setLawyers dummyLawyers) ;;
  upd (setShowLawyers true).

Definition searchLawyers (w : World) (s : Session) : Result unit :=
  run w handleSearchLawyers s.

(** *** What the markup wires to the state *)

(** Lines 316-326: the button under a message of render [c].  [None]
    when it is not rendered, else its label. *)
Definition translateButton (c : Session) (message : Message) : option jsstring :=
  if strict_eq (role message) (lit "assistant")
     && negb (strict_eq (selectedLanguage c) (lit "en"))
  then Some (if truthy_opt (translatedContent message)
             then lit "Show Original" else lit "Translate")
  else None.

(** Lines 358-362: the values of the language selector. *)
Definition languages : list jsstring :=
  [lit "en"; lit "hi"; lit "bn"; lit "te"; lit "mr"].

(** The events of the controls that write the state. *)
Inductive Event :=
| ChangeInput (value : jsstring)          (* line 346, onChange of the text input *)
| ChangeLanguage (value : jsstring)       (* line 353, onValueChange of the selector *)
| SubmitForm                              (* line 341, onSubmit of the form *)
| ClickTranslate (index : nat)            (* line 320, onClick of a message's button *)
| ChangeFile (files : option (list File)) (* line 380, onChange of the file input *)
| ClickSearchLawyers                      (* line 455, onClick *)
| ClickMenu.                              (* line 253, onClick *)

(** The code that render [c] attaches to an event. *)
Definition handler (groq : option Groq) (c : Session) (ev : Event) : Proc unit :=
  match ev with
  | ChangeInput value => upd (setInputMessage value)
  | ChangeLanguage value => upd (setSelectedLanguage value)
  | SubmitForm => handleSendMessage groq c
  | ClickTranslate index => handleTranslateMessage c index
  | ChangeFile files => handleFileUpload groq files
  | ClickSearchLawyers => handleSearchLawyers
  | ClickMenu => upd (setIsMenuOpen (negb (isMenuOpen c)))
  end.

(** Can render [c] deliver the event?  The text input and the send
    button are disabled while [isLoading], the file input while
    [isAnalyzing]; the selector offers [languages]; a message has its
    button when [translateButton] renders one. *)
Definition enabled (c : Session) (ev : Event) : bool :=
  match ev with
  | ChangeInput _ => negb (isLoading c)
  | ChangeLanguage value => bool_decide (value ∈ languages)
  | SubmitForm => negb (isLoading c)
  | ClickTranslate index =>
      match messages c !! index with
      | Some message =>
          match translateButton c message with Some _ => true | None => false end
      | None => false
      end
  | ChangeFile _ => negb (isAnalyzing c)
  | ClickSearchLawyers => true
  | ClickMenu => true
  end.

(** An event handled to its end before the next one arrives. *)
Definition dispatch (groq : option Groq) (w : World) (ev : Event) (s : Session)
  : Result unit :=
  run w (handler groq s ev) s.

(** The states that the controls can produce from the first render,
    one completed event after the other, in worlds that satisfy [good]. *)
Inductive reachable (groq : option Groq) (good : World -> Prop) : Session -> Prop :=
| reachable_initial : reachable groq good initial
| reachable_step (s : Session) (w : World) (ev : Event) :
    reachable groq good s -> good w -> enabled s ev = true ->
    reachable groq good (final (dispatch groq w ev s)).

(** [n] clicks on the button of message [i], each in the render that
    the one before left. *)
Fixpoint toggleTimes (w : World) (i n : nat) (s : Session) : Result unit :=
  match n with
  | 0 => untouched s
  | S n' =>
      let r := toggleTimes w i n' s in
      after (issued r) (toggleTranslation w i (final r))
  end.

(** A world whose translation service never answers with an empty text. *)
Definition translatesToText (w : World) : Prop :=
  forall text targetLang translated,
    result w (translateText text targetLang) = Returned translated ->
    translated <> [].

(** No message shows an empty text or caches one. *)
Definition wellFilled (s : Session) : Prop :=
  Forall (fun m => content m <> [] /\ translatedContent m <> Some []) (messages s).

(** What holds between two events: both flows idle, a language of
    the selector, a transcript that is not empty, and in it assistant
    messages and user messages without a translation. *)
Definition consistent (s : Session) : Prop :=
  isLoading s = false /\
  isAnalyzing s = false /\
  selectedLanguage s ∈ languages /\
  messages s <> [] /\
  Forall (fun m => role m = lit "assistant" \/
                   (role m = lit "user" /\ translatedContent m = None))
         (messages s).

(** A short session in [Scenario.online]: Hindi is selected, then the
    greeting is translated. *)
Module Tour.

Definition selected : Session :=
  final (dispatch Scenario.browserGroq Scenario.online
           (ChangeLanguage (lit "hi")) initial).

Definition shown : Session :=
  final (dispatch Scenario.browserGroq Scenario.online (ClickTranslate 0) selected).

(** [selected] after the chat round of "What is bail?". *)
Definition chatted : Session :=
  final (sendMessage Scenario.browserGroq Scenario.online
           (setInputMessage (lit "What is bail?") selected)).

(** A chat completion without a text. *)
Definition mute : World :=
  Scenario.world (Fulfilled {| choices := [] |})
                 (Fulfilled {| choices := [{| message := None |}] |})
                 (Scenario.translation 200 Scenario.namaste)
                 (Scenario.uploaded Scenario.noticeUrl).

End Tour.

(** * Properties *)

(** ** Laws of the effect trees *)

Section RunLaws.

Context (w : World).

Lemma outcome_run {A} (p : Proc A) (s : Session) :
  outcome (run w p s) = result w p.
Proof. revert s. induction p; intros s; simpl; auto. Qed.

(** A run passes through the state at the first suspension. *)
Lemma run_sync {A} (p : Proc A) (s : Session) :
  run w p s = run w (sync p s).2 (sync p s).1.
Proof. revert s. induction p; intros s; simpl; auto. Qed.

(** Suspensions change nothing when no other code runs meanwhile. *)
Lemma run_await {A} (p : Proc A) (s : Session) :
  run w (await p) s = run w p s.
Proof.
  revert s. induction p as [| | f k IH | r k IH | k IH]; intros s; simpl; auto.
  by rewrite IH.
Qed.

Lemma run_bind {A B} (p : Proc A) (f : A -> Proc B) (s : Session) :
  run w (bind p f) s = andThen (run w p s) (fun a => run w (f a)).
Proof.
  revert s. induction p as [| | g k IH | r k IH | k IH]; intros s; simpl; auto.
  - unfold andThen, after. simpl. by destruct (run w (f a) s).
  - rewrite IH. unfold andThen. simpl.
    by destruct (outcome (run w (k (w r)) s)).
Qed.

Lemma run_try_catch {A} (p : Proc A) (h : Exn -> Proc A) (s : Session) :
  run w (try_catch p h) s = orCatch (run w p s) (fun e => run w (h e)).
Proof.
  revert s. induction p as [| | f k IH | r k IH | k IH]; intros s; simpl; auto.
  - unfold orCatch, after. simpl. by destruct (run w (h e) s).
  - rewrite IH. unfold orCatch. simpl.
    by destruct (outcome (run w (k (w r)) s)).
Qed.

Lemma run_finally {A} (p : Proc A) (c : Proc unit) (s : Session) :
  run w (finally p c) s = andFinally (run w p s) (run w c).
Proof.
  revert s. induction p as [| | f k IH | r k IH | k IH]; intros s; simpl; auto.
  - rewrite run_bind. unfold andThen, andFinally, after. simpl.
    destruct (outcome (run w c s)); simpl; by rewrite ?app_nil_r.
  - rewrite run_bind. unfold andThen, andFinally, after. simpl.
    destruct (outcome (run w c s)); simpl; by rewrite ?app_nil_r.
  - by rewrite IH.
Qed.

Lemma result_await {A} (p : Proc A) : result w (await p) = result w p.
Proof. induction p; simpl; auto. Qed.

Lemma result_bind {A B} (p : Proc A) (f : A -> Proc B) :
  result w (bind p f) =
  match result w p with
  | Returned a => result w (f a)
  | Threw e => Threw e
  end.
Proof. induction p; simpl; auto. Qed.

Lemma result_try_catch {A} (p : Proc A) (h : Exn -> Proc A) :
  result w (try_catch p h) =
  match result w p with
  | Returned a => Returned a
  | Threw e => result w (h e)
  end.
Proof. induction p; simpl; auto. Qed.

End RunLaws.

(** ** How the collaborator calls settle

    The four lemmas list every way in which a collaborator call fails:
    the client is missing ([GroqNotInitialized]); the request is
    rejected or the body cannot be read ([Rejection]); the response is
    not a 2xx one ([HttpError], [UploadFailed]); the translation
    service reports a status other than 200 in its body
    ([TranslationApiError]); the text to translate cannot be put in a
    url ([URIError]). *)

Section Collaborators.

Context (groq : option Groq) (w : World).

Lemma getGroqChatCompletion_result (context : list Message) :
  result w (getGroqChatCompletion groq context) =
  match groq with
  | None => Threw GroqNotInitialized
  | Some _ =>
      match w (GroqChat context) with
      | Fulfilled c => Returned (or_else (firstContent c) chatFallback)
      | Rejected reason => Threw (Rejection reason)
      end
  end.
Proof.
  unfold getGroqChatCompletion. destruct groq; simpl; [|done].
  by destruct (w (GroqChat context)).
Qed.

Lemma getGroqVisionAnalysis_result (imageUrl : jsstring) :
  result w (getGroqVisionAnalysis groq imageUrl) =
  match groq with
  | None => Threw GroqNotInitialized
  | Some _ =>
      match w (GroqVision imageUrl) with
      | Fulfilled c => Returned (or_else (firstContent c) visionFallback)
      | Rejected reason => Threw (Rejection reason)
      end
  end.
Proof.
  unfold getGroqVisionAnalysis. destruct groq; simpl; [|done].
  by destruct (w (GroqVision imageUrl)).
Qed.

Lemma translateText_result (text targetLang : jsstring) :
  result w (translateText text targetLang) =
  if isWellFormed text then
    match w (FetchTranslation text targetLang) with
    | Rejected reason => Threw (Rejection reason)
    | Fulfilled response =>
        if ok response then
          match json response with
          | Rejected reason => Threw (Rejection reason)
          | Fulfilled data =>
              if (responseStatus data =? 200)%Z
              then Returned (translatedText data)
              else Threw (TranslationApiError (responseStatus data))
          end
        else Threw (HttpError (status response))
    end
  else Threw URIError.
Proof.
  unfold translateText. destruct (isWellFormed text); simpl; [|done].
  destruct (w (FetchTranslation text targetLang)) as [[[] st [data|]]|];
    simpl; try done.
  by destruct (responseStatus data =? 200)%Z.
Qed.

Lemma uploadImage_result (file : File) :
  result w (uploadImage file) =
  match w (FetchUpload file) with
  | Rejected reason => Threw (Rejection reason)
  | Fulfilled response =>
      if ok response then
        match json response with
        | Rejected reason => Threw (Rejection reason)
        | Fulfilled data => Returned (url data)
        end
      else Threw UploadFailed
  end.
Proof.
  unfold uploadImage. simpl.
  by destruct (w (FetchUpload file)) as [[[] st [data|]]|].
Qed.

End Collaborators.

(** ** The chat flow *)

Section Chat.

Context (groq : option Groq) (s : Session).

(** C1.  When the draft is not empty after trimming and no chat
    request is in flight, [sendMessage] ends in one of two ways.  If
    the chat completion succeeds, the transcript is the old one
    followed by the user message and the assistant message, so it is
    longer by exactly 2.  If it fails, the transcript is the old one
    followed by the user message only, longer by exactly 1, and the
    error field holds the fixed text of the chat flow.  The chat
    loading flag is false in both final states. *)
Theorem sendMessage_transcript (w : World) :
  trim (inputMessage s) <> [] -> isLoading s = false ->
  let r := sendMessage groq w s in
  let user := userMessage (inputMessage s) in
  match result w (getGroqChatCompletion groq (messages s ++ [user])) with
  | Returned aiResponse =>
      messages (final r) = messages s ++ [user; botMessage aiResponse] /\
      length (messages (final r)) = length (messages s) + 2 /\
      error (final r) = None /\
      isLoading (final r) = false
  | Threw _ =>
      messages (final r) = messages s ++ [user] /\
      length (messages (final r)) = length (messages s) + 1 /\
      error (final r) = Some chatErrorText /\
      isLoading (final r) = false
  end.
Proof.
  intros Hdraft Hidle r user. subst r user.
  unfold sendMessage, handleSendMessage.
  destruct (trim (inputMessage s)) as [|c0 rest] eqn:Htrim; [done|].
  rewrite Hidle. simpl.
  unfold getGroqChatCompletion.
  destruct groq as [client|]; simpl.
  - destruct (w (GroqChat _)) as [completion|reason]; simpl.
    + rewrite <- app_assoc. simpl. rewrite !length_app. simpl.
      repeat split; lia.
    + rewrite !length_app. simpl. repeat split; lia.
  - rewrite !length_app. simpl. repeat split; lia.
Qed.

(** C6.  When the draft is not empty after trimming and no chat
    request is in flight, the handler reaches its first [await]
    having appended exactly one message, a user message whose content
    is the draft as typed.  In that intermediate state the chat
    loading flag is true, the draft is empty and the error is
    cleared.  The handler is then suspended: with a client it waits
    for the chat request it has just sent, and no reply has been
    consumed.  Every complete run passes through this state. *)
Theorem sendMessage_sync :
  trim (inputMessage s) <> [] -> isLoading s = false ->
  let user := userMessage (inputMessage s) in
  let paused := sync (handleSendMessage groq s) s in
  role user = lit "user" /\ content user = inputMessage s /\
  messages paused.1 = messages s ++ [user] /\
  length (messages paused.1) = length (messages s) + 1 /\
  isLoading paused.1 = true /\
  inputMessage paused.1 = [] /\
  error paused.1 = None /\
  suspended paused.2 = true /\
  pendingRequest paused.2 =
    match groq with
    | Some _ => Some (GroqChat (messages s ++ [user]))
    | None => None
    end /\
  forall w, sendMessage groq w s = run w paused.2 paused.1.
Proof.
  intros Hdraft Hidle user paused.
  assert (Hrun : forall w, sendMessage groq w s = run w paused.2 paused.1)
    by (intros w; apply run_sync).
  revert Hrun. subst paused user.
  unfold handleSendMessage.
  destruct (trim (inputMessage s)) as [|c0 rest]; [done|].
  rewrite Hidle. simpl. unfold getGroqChatCompletion.
  destruct groq as [client|]; simpl; rewrite length_app; simpl; intros Hrun;
    repeat split; auto.
Qed.

(** C9.  When the draft is empty after trimming, or a chat request
    is in flight, [sendMessage] returns at once: the state is the one
    it started from, no request was sent, and the handler did not
    even reach an [await]. *)
Theorem sendMessage_guard (w : World) :
  trim (inputMessage s) = [] \/ isLoading s = true ->
  sendMessage groq w s = untouched s /\
  sync (handleSendMessage groq s) s = (s, Ret tt).
Proof.
  unfold sendMessage, handleSendMessage.
  intros [-> | ->]; simpl; rewrite ?orb_true_r; auto.
Qed.

End Chat.

Lemma sendMessage_transcript_witness :
  (trim (inputMessage Scenario.asking) <> [] /\
   isLoading Scenario.asking = false) /\
  length (messages (final (sendMessage Scenario.browserGroq Scenario.online
                             Scenario.asking))) = 3 /\
  length (messages (final (sendMessage Scenario.browserGroq Scenario.offline
                             Scenario.asking))) = 2 /\
  error (final (sendMessage None Scenario.online Scenario.asking)) =
    Some chatErrorText.
Proof.
  assert (Hdraft : trim (inputMessage Scenario.asking) <> [])
    by (vm_compute; discriminate).
  assert (Hidle : isLoading Scenario.asking = false) by reflexivity.
  split; [by split|]. split; [|split].
  - exact (proj1 (proj2 (sendMessage_transcript Scenario.browserGroq
                           Scenario.asking Scenario.online Hdraft Hidle))).
  - exact (proj1 (proj2 (sendMessage_transcript Scenario.browserGroq
                           Scenario.asking Scenario.offline Hdraft Hidle))).
  - exact (proj1 (proj2 (proj2 (sendMessage_transcript None
                           Scenario.asking Scenario.online Hdraft Hidle)))).
Defined.

Lemma sendMessage_sync_witness :
  (trim (inputMessage Scenario.asking) <> [] /\
   isLoading Scenario.asking = false) /\
  messages (sync (handleSendMessage Scenario.browserGroq Scenario.asking)
              Scenario.asking).1 =
    [greeting; userMessage (lit "What is bail?")] /\
  isLoading (sync (handleSendMessage Scenario.browserGroq Scenario.asking)
               Scenario.asking).1 = true.
Proof.
  assert (Hdraft : trim (inputMessage Scenario.asking) <> [])
    by (vm_compute; discriminate).
  assert (Hidle : isLoading Scenario.asking = false) by reflexivity.
  pose proof (sendMessage_sync Scenario.browserGroq Scenario.asking Hdraft Hidle)
    as (_ & _ & Hmessages & _ & Hloading & _).
  split; [by split|]. split; [exact Hmessages | exact Hloading].
Defined.

Lemma sendMessage_guard_witness :
  trim (inputMessage (setInputMessage (lit "   ") initial)) = [] /\
  sendMessage Scenario.browserGroq Scenario.online
    (setInputMessage (lit "   ") initial) =
  untouched (setInputMessage (lit "   ") initial) /\
  isLoading (setIsLoading true Scenario.asking) = true /\
  sendMessage Scenario.browserGroq Scenario.online
    (setIsLoading true Scenario.asking) =
  untouched (setIsLoading true Scenario.asking).
Proof.
  assert (Hblank : trim (inputMessage (setInputMessage (lit "   ") initial)) = [])
    by reflexivity.
  assert (Hbusy : isLoading (setIsLoading true Scenario.asking) = true)
    by reflexivity.
  split; [exact Hblank|]. split; [|split; [exact Hbusy|]].
  - exact (proj1 (sendMessage_guard Scenario.browserGroq _ Scenario.online
                    (or_introl Hblank))).
  - exact (proj1 (sendMessage_guard Scenario.browserGroq _ Scenario.online
                    (or_intror Hbusy))).
Defined.

(** ** The translation flow *)

Section TranslationBranches.

Context (w : World) (i : nat) (s : Session) (m : Message).

(** The branch with a cached translation: a swap and nothing else. *)
Lemma toggleTranslation_cached :
  selectedLanguage s <> lit "en" ->
  messages s !! i = Some m ->
  truthy_opt (translatedContent m) = true ->
  toggleTranslation w i s =
  untouched (setMessages (fun _ => <[i := swapTranslation m]> (messages s)) s).
Proof.
  intros Hlang Hm Hcached.
  unfold toggleTranslation, handleTranslateMessage, strict_eq.
  rewrite bool_decide_eq_false_2 by done. by rewrite Hm, Hcached.
Qed.

(** The branch without one: at most a single request (none when the
    text cannot be put in a url), then either the replacement of the
    message or the error text. *)
Lemma toggleTranslation_fetch :
  selectedLanguage s <> lit "en" ->
  messages s !! i = Some m ->
  truthy_opt (translatedContent m) = false ->
  toggleTranslation w i s =
  {| final :=
       match result w (translateText (content m) (selectedLanguage s)) with
       | Returned translated =>
           setMessages
             (fun _ => <[i := translatedMessage m translated]> (messages s)) s
       | Threw _ => setError (Some translationErrorText) s
       end;
     issued := if isWellFormed (content m)
               then [FetchTranslation (content m) (selectedLanguage s)]
               else [];
     outcome := Returned tt |}.
Proof.
  intros Hlang Hm Hnone. rewrite translateText_result.
  unfold toggleTranslation, handleTranslateMessage, strict_eq.
  rewrite bool_decide_eq_false_2 by done. rewrite Hm, Hnone.
  unfold translateText. destruct (isWellFormed (content m)); simpl; [|done].
  destruct (w (FetchTranslation _ _)) as [[[] st [data|]]|]; simpl; try done.
  by destruct (responseStatus data =? 200)%Z.
Qed.

End TranslationBranches.

Section Translation.

Context (w : World) (i : nat) (s : Session).

(** C8.  When the selected language is "en", [toggleTranslation] does
    nothing, whatever the index: it returns with the state it
    started from, every field included, and sends no request. *)
Theorem toggleTranslation_en :
  selectedLanguage s = lit "en" -> toggleTranslation w i s = untouched s.
Proof.
  intros Hen. unfold toggleTranslation, handleTranslateMessage, strict_eq.
  by rewrite bool_decide_eq_true_2.
Qed.

(** C10.  When the selected language is not "en", the handler reads
    [messages[index]] unguarded.  For an index below the length of
    the transcript the read finds a message and the handler returns
    normally.  The [TypeError] of the failed read is the outcome
    exactly when the index is not below the length, and then it
    leaves the handler with the state untouched and nothing sent. *)
Theorem toggleTranslation_lookup :
  selectedLanguage s <> lit "en" ->
  (i < length (messages s) ->
     is_Some (messages s !! i) /\
     outcome (toggleTranslation w i s) = Returned tt) /\
  (outcome (toggleTranslation w i s) = Threw UndefinedProperty <->
     length (messages s) <= i) /\
  (length (messages s) <= i ->
     toggleTranslation w i s =
     {| final := s; issued := []; outcome := Threw UndefinedProperty |}).
Proof.
  intros Hlang.
  assert (Hin : i < length (messages s) ->
                is_Some (messages s !! i) /\
                outcome (toggleTranslation w i s) = Returned tt).
  { intros Hlt. split; [by apply lookup_lt_is_Some_2|].
    unfold toggleTranslation. rewrite outcome_run.
    unfold handleTranslateMessage, strict_eq.
    rewrite bool_decide_eq_false_2 by done.
    destruct (lookup_lt_is_Some_2 _ _ Hlt) as [m ->].
    destruct (truthy_opt (translatedContent m)); [done|].
    rewrite result_try_catch, result_bind, result_await.
    by destruct (result w (translateText _ _)). }
  assert (Hout : length (messages s) <= i ->
                 toggleTranslation w i s =
                 {| final := s; issued := [];
                    outcome := Threw UndefinedProperty |}).
  { intros Hge. unfold toggleTranslation, handleTranslateMessage, strict_eq.
    rewrite bool_decide_eq_false_2 by done.
    by rewrite (lookup_ge_None_2 _ _ Hge). }
  split; [done|]. split; [|done]. split.
  - intros Hthrew.
    destruct (decide (i < length (messages s))) as [Hlt|]; [|lia].
    destruct (Hin Hlt) as [_ Hret]. congruence.
  - intros Hge. by rewrite (Hout Hge).
Qed.

(** C4, as the code has it.  For a message at index [i] without a
    cached translation and a selected language other than "en":
    when the content has no unpaired surrogate, [toggleTranslation]
    sends one request, the translation of the current content into
    the selected language; when it has one, the url cannot be built
    and nothing is sent.  When [translateText] returns a text, the
    request has been sent, and the message at [i] afterwards has that
    text as content and the content from before the call as
    [translatedContent]; its role and the rest of the transcript are
    as before. *)
Theorem toggleTranslation_fetch_success (m : Message) :
  selectedLanguage s <> lit "en" ->
  messages s !! i = Some m ->
  truthy_opt (translatedContent m) = false ->
  let r := toggleTranslation w i s in
  issued r = (if isWellFormed (content m)
              then [FetchTranslation (content m) (selectedLanguage s)]
              else []) /\
  forall translated,
    result w (translateText (content m) (selectedLanguage s)) =
      Returned translated ->
    issued r = [FetchTranslation (content m) (selectedLanguage s)] /\
    messages (final r) !! i =
      Some {| role := role m; content := translated;
              translatedContent := Some (content m) |} /\
    messages (final r) = <[i := translatedMessage m translated]> (messages s) /\
    error (final r) = error s /\
    outcome r = Returned tt.
Proof.
  intros Hlang Hm Hnone r. subst r.
  rewrite (toggleTranslation_fetch w i s m Hlang Hm Hnone). simpl.
  split; [done|]. intros translated Hok. rewrite Hok.
  rewrite translateText_result in Hok.
  destruct (isWellFormed (content m)); [|done]. simpl.
  repeat split. apply list_lookup_insert_eq. by eapply lookup_lt_Some.
Qed.

(** C5.  For a message at index [i] without a cached translation
    and a selected language other than "en", when [translateText]
    fails, in whatever way, [toggleTranslation] sets the error text
    of the translation flow and changes nothing else: the message at
    [i] and the whole transcript are as before.  The request that
    failed is the only one sent; when the failure is that of building
    the url, none was sent. *)
Theorem toggleTranslation_fetch_failure (m : Message) (e : Exn) :
  selectedLanguage s <> lit "en" ->
  messages s !! i = Some m ->
  truthy_opt (translatedContent m) = false ->
  result w (translateText (content m) (selectedLanguage s)) = Threw e ->
  let r := toggleTranslation w i s in
  error (final r) = Some translationErrorText /\
  messages (final r) = messages s /\
  messages (final r) !! i = Some m /\
  final r = setError (Some translationErrorText) s /\
  issued r = (if isWellFormed (content m)
              then [FetchTranslation (content m) (selectedLanguage s)]
              else []) /\
  outcome r = Returned tt.
Proof.
  intros Hlang Hm Hnone Hfail r. subst r.
  rewrite (toggleTranslation_fetch w i s m Hlang Hm Hnone), Hfail.
  simpl. by repeat split.
Qed.

(** C3, as the code has it.  For a message at index [i] whose
    content is not empty and whose cached translation is not empty,
    and a selected language other than "en": the first call swaps
    the two fields, the second call, made in the state the first one
    left, swaps them back, so that the message, with the whole
    state, is what it was before the first call; neither call sends
    a request. *)
Theorem toggleTranslation_twice (m : Message) (t : jsstring) :
  selectedLanguage s <> lit "en" ->
  messages s !! i = Some m ->
  translatedContent m = Some t -> t <> [] -> content m <> [] ->
  let r1 := toggleTranslation w i s in
  let r2 := toggleTranslation w i (final r1) in
  messages (final r1) !! i =
    Some {| role := role m; content := t;
            translatedContent := Some (content m) |} /\
  issued r1 = [] /\
  issued r2 = [] /\
  messages (final r2) !! i = Some m /\
  final r2 = s.
Proof.
  intros Hlang Hm Ht Hne Hcontent r1 r2.
  assert (Hlt : i < length (messages s)) by by eapply lookup_lt_Some.
  assert (H1 : r1 = untouched
                 (setMessages (fun _ => <[i := swapTranslation m]> (messages s)) s)).
  { apply (toggleTranslation_cached w i s m); [done..|].
    rewrite Ht. by destruct t. }
  assert (Hswap : swapTranslation m =
            {| role := role m; content := t;
               translatedContent := Some (content m) |}).
  { unfold swapTranslation. by rewrite Ht. }
  assert (Hm1 : messages (final r1) !! i = Some (swapTranslation m)).
  { rewrite H1. simpl. by apply list_lookup_insert_eq. }
  assert (H2 : r2 = untouched s).
  { subst r2. rewrite H1 in Hm1 |- *. simpl in Hm1 |- *.
    rewrite (toggleTranslation_cached w i _ (swapTranslation m)); [|done..|].
    - f_equal. simpl. rewrite list_insert_insert_eq.
      unfold setMessages at 1. simpl.
      rewrite list_insert_id; [by destruct s|].
      rewrite Hm, Hswap. f_equal. unfold swapTranslation. simpl.
      destruct m; simpl in *. by subst.
    - rewrite Hswap. simpl. by destruct (content m). }
  rewrite H2, Hm1, Hswap, H1. by repeat split.
Qed.

End Translation.

(** C4 as written fails.  In [Scenario.garbled] the reply of the
    assistant at index 2 is a lead surrogate on its own and has no
    cached translation.  A click on its button sends no translation
    request: [encodeURIComponent] throws on line 74, before [fetch],
    and the handler sets its error text. *)
Lemma toggleTranslation_sends_nothing :
  selectedLanguage Scenario.garbled <> lit "en" /\
  messages Scenario.garbled !! 2 = Some (botMessage Scenario.lone) /\
  translatedContent (botMessage Scenario.lone) = None /\
  issued (toggleTranslation Scenario.online 2 Scenario.garbled) = [] /\
  issued (toggleTranslation Scenario.online 2 Scenario.garbled) <>
    [FetchTranslation (content (botMessage Scenario.lone))
       (selectedLanguage Scenario.garbled)] /\
  final (toggleTranslation Scenario.online 2 Scenario.garbled) =
    setError (Some translationErrorText) Scenario.garbled.
Proof.
  split; [vm_compute; discriminate|].
  repeat (split; [reflexivity|]).
  split; [vm_compute; discriminate | reflexivity].
Qed.

Lemma toggleTranslation_en_witness :
  selectedLanguage initial = lit "en" /\
  toggleTranslation Scenario.online 0 initial = untouched initial /\
  toggleTranslation Scenario.offline 7 initial = untouched initial.
Proof.
  assert (Hen : selectedLanguage initial = lit "en") by reflexivity.
  split; [exact Hen|]. split.
  - exact (toggleTranslation_en Scenario.online 0 initial Hen).
  - exact (toggleTranslation_en Scenario.offline 7 initial Hen).
Defined.

Lemma toggleTranslation_lookup_witness :
  (selectedLanguage Scenario.hindi <> lit "en" /\
   0 < length (messages Scenario.hindi)) /\
  is_Some (messages Scenario.hindi !! 0) /\
  outcome (toggleTranslation Scenario.offline 0 Scenario.hindi) = Returned tt /\
  toggleTranslation Scenario.online 1 Scenario.hindi =
  {| final := Scenario.hindi; issued := []; outcome := Threw UndefinedProperty |}.
Proof.
  assert (Hlang : selectedLanguage Scenario.hindi <> lit "en")
    by (vm_compute; discriminate).
  assert (Hlt : 0 < length (messages Scenario.hindi)) by (simpl; lia).
  assert (Hge : length (messages Scenario.hindi) <= 1) by (simpl; lia).
  split; [by split|]. split; [|split].
  - exact (proj1 (proj1 (toggleTranslation_lookup Scenario.offline 0
                           Scenario.hindi Hlang) Hlt)).
  - exact (proj2 (proj1 (toggleTranslation_lookup Scenario.offline 0
                           Scenario.hindi Hlang) Hlt)).
  - exact (proj2 (proj2 (toggleTranslation_lookup Scenario.online 1
                           Scenario.hindi Hlang)) Hge).
Defined.

Lemma toggleTranslation_fetch_success_witness :
  (selectedLanguage Scenario.hindi <> lit "en" /\
   messages Scenario.hindi !! 0 = Some Scenario.hello /\
   truthy_opt (translatedContent Scenario.hello) = false /\
   result Scenario.online (translateText (lit "Hello") (lit "hi")) =
     Returned Scenario.namaste) /\
  issued (toggleTranslation Scenario.online 0 Scenario.hindi) =
    [FetchTranslation (lit "Hello") (lit "hi")] /\
  messages (final (toggleTranslation Scenario.online 0 Scenario.hindi)) !! 0 =
    Some {| role := lit "assistant"; content := Scenario.namaste;
            translatedContent := Some (lit "Hello") |}.
Proof.
  assert (Hlang : selectedLanguage Scenario.hindi <> lit "en")
    by (vm_compute; discriminate).
  assert (Hm : messages Scenario.hindi !! 0 = Some Scenario.hello) by reflexivity.
  assert (Hnone : truthy_opt (translatedContent Scenario.hello) = false)
    by reflexivity.
  assert (Hok : result Scenario.online
                  (translateText (content Scenario.hello)
                     (selectedLanguage Scenario.hindi)) =
                Returned Scenario.namaste) by reflexivity.
  split; [by repeat split|]. split.
  - exact (proj1 (proj2 (toggleTranslation_fetch_success Scenario.online 0
                           Scenario.hindi Scenario.hello Hlang Hm Hnone)
                    Scenario.namaste Hok)).
  - exact (proj1 (proj2 (proj2 (toggleTranslation_fetch_success Scenario.online 0
                                  Scenario.hindi Scenario.hello Hlang Hm Hnone)
                           Scenario.namaste Hok))).
Defined.

Lemma toggleTranslation_fetch_failure_witness :
  (selectedLanguage Scenario.hindi <> lit "en" /\
   messages Scenario.hindi !! 0 = Some Scenario.hello /\
   truthy_opt (translatedContent Scenario.hello) = false /\
   result Scenario.degraded (translateText (lit "Hello") (lit "hi")) =
     Threw (TranslationApiError 403)) /\
  final (toggleTranslation Scenario.degraded 0 Scenario.hindi) =
    setError (Some translationErrorText) Scenario.hindi /\
  (messages Scenario.garbled !! 2 = Some (botMessage Scenario.lone) /\
   result Scenario.online (translateText Scenario.lone (lit "hi")) =
     Threw URIError) /\
  messages (final (toggleTranslation Scenario.online 2 Scenario.garbled)) =
    messages Scenario.garbled.
Proof.
  assert (Hlang : selectedLanguage Scenario.hindi <> lit "en")
    by (vm_compute; discriminate).
  assert (Hm : messages Scenario.hindi !! 0 = Some Scenario.hello) by reflexivity.
  assert (Hnone : truthy_opt (translatedContent Scenario.hello) = false)
    by reflexivity.
  assert (Hfail : result Scenario.degraded
                    (translateText (content Scenario.hello)
                       (selectedLanguage Scenario.hindi)) =
                  Threw (TranslationApiError 403)) by reflexivity.
  assert (Hlang' : selectedLanguage Scenario.garbled <> lit "en")
    by (vm_compute; discriminate).
  assert (Hm' : messages Scenario.garbled !! 2 = Some (botMessage Scenario.lone))
    by reflexivity.
  assert (Hnone' : truthy_opt (translatedContent (botMessage Scenario.lone))
                   = false) by reflexivity.
  assert (Hfail' : result Scenario.online
                     (translateText (content (botMessage Scenario.lone))
                        (selectedLanguage Scenario.garbled)) =
                   Threw URIError) by reflexivity.
  split; [by repeat split|]. split; [|split; [by split|]].
  - exact (proj1 (proj2 (proj2 (proj2
             (toggleTranslation_fetch_failure Scenario.degraded 0 Scenario.hindi
                Scenario.hello (TranslationApiError 403)
                Hlang Hm Hnone Hfail))))).
  - exact (proj1 (proj2
             (toggleTranslation_fetch_failure Scenario.online 2 Scenario.garbled
                (botMessage Scenario.lone) URIError
                Hlang' Hm' Hnone' Hfail'))).
Defined.

Lemma toggleTranslation_twice_witness :
  (selectedLanguage Scenario.translated <> lit "en" /\
   messages Scenario.translated !! 0 =
     Some (translatedMessage Scenario.hello Scenario.namaste) /\
   Scenario.namaste <> [] /\ lit "Hello" <> []) /\
  messages (final (toggleTranslation Scenario.online 0 Scenario.translated)) !! 0 =
    Some {| role := lit "assistant"; content := lit "Hello";
            translatedContent := Some Scenario.namaste |} /\
  final (toggleTranslation Scenario.online 0
           (final (toggleTranslation Scenario.online 0 Scenario.translated))) =
    Scenario.translated.
Proof.
  assert (Hlang : selectedLanguage Scenario.translated <> lit "en")
    by (vm_compute; discriminate).
  assert (Hm : messages Scenario.translated !! 0 =
               Some (translatedMessage Scenario.hello Scenario.namaste))
    by reflexivity.
  assert (Ht : translatedContent (translatedMessage Scenario.hello Scenario.namaste)
               = Some (lit "Hello")) by reflexivity.
  assert (Hne : lit "Hello" <> []) by (vm_compute; discriminate).
  assert (Hcontent : content (translatedMessage Scenario.hello Scenario.namaste)
                     <> []) by (vm_compute; discriminate).
  split; [by repeat split|]. split.
  - exact (proj1 (toggleTranslation_twice Scenario.online 0 Scenario.translated
                    _ _ Hlang Hm Ht Hne Hcontent)).
  - exact (proj2 (proj2 (proj2 (proj2
             (toggleTranslation_twice Scenario.online 0 Scenario.translated
                _ _ Hlang Hm Ht Hne Hcontent))))).
Defined.

(** The state [Scenario.emptied] is one the program produces: it is
    what a first toggle leaves when the service answers with an empty
    text. *)
Remark emptied_reached :
  final (toggleTranslation Scenario.silent 0 Scenario.hindi) = Scenario.emptied.
Proof. reflexivity. Qed.

(** C3 as written fails.  In [Scenario.emptied] the message at index 0
    carries the cached translation "Hello" and shows an empty text.
    The first toggle swaps the two and sends nothing.  The second
    toggle finds an empty [translatedContent], which the test of line
    145 takes for none: it sends a translation request, and the
    message it leaves is not the one before the first call. *)
Lemma toggleTranslation_twice_refetches :
  selectedLanguage Scenario.emptied <> lit "en" /\
  messages Scenario.emptied !! 0 =
    Some {| role := lit "assistant"; content := [];
            translatedContent := Some (lit "Hello") |} /\
  issued (toggleTranslation Scenario.online 0 Scenario.emptied) = [] /\
  selectedLanguage (final (toggleTranslation Scenario.online 0 Scenario.emptied)) =
    selectedLanguage Scenario.emptied /\
  issued (toggleTranslation Scenario.online 0
            (final (toggleTranslation Scenario.online 0 Scenario.emptied))) =
    [FetchTranslation (lit "Hello") (lit "hi")] /\
  messages (final (toggleTranslation Scenario.online 0
              (final (toggleTranslation Scenario.online 0 Scenario.emptied)))) !! 0 =
    Some {| role := lit "assistant"; content := Scenario.namaste;
            translatedContent := Some (lit "Hello") |} /\
  messages (final (toggleTranslation Scenario.online 0
              (final (toggleTranslation Scenario.online 0 Scenario.emptied)))) !! 0 <>
    messages Scenario.emptied !! 0.
Proof.
  split; [vm_compute; discriminate|].
  repeat (split; [reflexivity|]).
  vm_compute. discriminate.
Qed.

(** ** The document analysis flow *)

Section Analysis.

Context (groq : option Groq) (w : World) (s : Session).

(** The whole of [analyzeDocument], by cases on its two steps. *)
Lemma analyzeDocument_run (files : option (list File)) (file : File) :
  files ≫= head = Some file ->
  analyzeDocument groq w files s =
  let started := setError None (setIsAnalyzing true s) in
  let failed :=
    setIsAnalyzing false (setError (Some analysisErrorText) started) in
  match result w (uploadImage file) with
  | Threw _ =>
      {| final := failed; issued := [FetchUpload file]; outcome := Returned tt |}
  | Returned imageUrl =>
      match result w (getGroqVisionAnalysis groq imageUrl) with
      | Threw _ =>
          {| final := failed;
             issued := FetchUpload file ::
                       match groq with
                       | Some _ => [GroqVision imageUrl]
                       | None => []
                       end;
             outcome := Returned tt |}
      | Returned analysis =>
          {| final := setIsAnalyzing false
                        (setDocumentAnalysis (Some analysis) started);
             issued := [FetchUpload file; GroqVision imageUrl];
             outcome := Returned tt |}
      end
  end.
Proof.
  intros Hfile. rewrite uploadImage_result.
  unfold analyzeDocument, handleFileUpload. rewrite Hfile.
  unfold uploadImage. simpl.
  destruct (w (FetchUpload file)) as [[[] st [data|]]|]; simpl; try done.
  rewrite getGroqVisionAnalysis_result. unfold getGroqVisionAnalysis.
  destruct groq as [client|]; simpl; [|done].
  by destruct (w (GroqVision (url data))).
Qed.

(** C2, as the code has it.  Given a file, [analyzeDocument] first
    sets the analysis loading flag and clears the error; the
    analysis result is not written.  When the upload fails, or the
    upload succeeds and the vision analysis fails, the final state
    has the loading flag false, the fixed error text of the analysis
    flow, and the analysis result it had before the call: unset only
    if it was unset. *)
Theorem analyzeDocument_failure (files : option (list File)) (file : File) :
  files ≫= head = Some file ->
  (exists e, result w (uploadImage file) = Threw e) \/
  (exists imageUrl e,
      result w (uploadImage file) = Returned imageUrl /\
      result w (getGroqVisionAnalysis groq imageUrl) = Threw e) ->
  let paused := sync (handleFileUpload groq files) s in
  let r := analyzeDocument groq w files s in
  isAnalyzing paused.1 = true /\
  error paused.1 = None /\
  documentAnalysis paused.1 = documentAnalysis s /\
  suspended paused.2 = true /\
  isAnalyzing (final r) = false /\
  error (final r) = Some analysisErrorText /\
  documentAnalysis (final r) = documentAnalysis s.
Proof.
  intros Hfile Hfail paused r.
  assert (Hpaused : isAnalyzing paused.1 = true /\ error paused.1 = None /\
                    documentAnalysis paused.1 = documentAnalysis s /\
                    suspended paused.2 = true).
  { subst paused. unfold handleFileUpload. rewrite Hfile. simpl.
    by repeat split. }
  destruct Hpaused as (? & ? & ? & ?).
  subst r. rewrite (analyzeDocument_run files file Hfile).
  destruct Hfail as [[e ->] | (imageUrl & e & -> & ->)]; simpl;
    by repeat split.
Qed.

End Analysis.

(** C2 as written fails.  [Scenario.analysed] shows the report of an
    earlier analysis.  A file is given and the upload is rejected.
    Neither the first statements of the handler nor its [catch] write
    the analysis result: the old report is still there at the first
    [await] and in the final state. *)
Lemma analyzeDocument_keeps_result :
  Some [Scenario.scan] ≫= head = Some Scenario.scan /\
  result Scenario.offline (uploadImage Scenario.scan) =
    Threw (Rejection (lit "Failed to fetch")) /\
  documentAnalysis
    (sync (handleFileUpload Scenario.browserGroq (Some [Scenario.scan]))
       Scenario.analysed).1 = Some (lit "A summons.") /\
  documentAnalysis
    (final (analyzeDocument Scenario.browserGroq Scenario.offline
              (Some [Scenario.scan]) Scenario.analysed)) = Some (lit "A summons.") /\
  documentAnalysis
    (final (analyzeDocument Scenario.browserGroq Scenario.offline
              (Some [Scenario.scan]) Scenario.analysed)) <> None.
Proof.
  repeat (split; [reflexivity|]). vm_compute. discriminate.
Qed.

Lemma analyzeDocument_failure_witness :
  (Some [Scenario.scan] ≫= head = Some Scenario.scan /\
   result Scenario.refusing (uploadImage Scenario.scan) = Threw UploadFailed /\
   result Scenario.degraded (uploadImage Scenario.scan) =
     Returned Scenario.noticeUrl /\
   result Scenario.degraded
     (getGroqVisionAnalysis Scenario.browserGroq Scenario.noticeUrl) =
     Threw (Rejection (lit "model not found"))) /\
  error (final (analyzeDocument Scenario.browserGroq Scenario.refusing
                  (Some [Scenario.scan]) Scenario.analysed)) =
    Some analysisErrorText /\
  documentAnalysis (final (analyzeDocument Scenario.browserGroq Scenario.degraded
                             (Some [Scenario.scan]) initial)) = None.
Proof.
  assert (Hfile : Some [Scenario.scan] ≫= head = Some Scenario.scan)
    by reflexivity.
  assert (Hupload : result Scenario.refusing (uploadImage Scenario.scan) =
                    Threw UploadFailed) by reflexivity.
  assert (Huploaded : result Scenario.degraded (uploadImage Scenario.scan) =
                      Returned Scenario.noticeUrl) by reflexivity.
  assert (Hvision : result Scenario.degraded
                      (getGroqVisionAnalysis Scenario.browserGroq
                         Scenario.noticeUrl) =
                    Threw (Rejection (lit "model not found"))) by reflexivity.
  split; [by repeat split|]. split.
  - exact (proj1 (proj2 (proj2 (proj2 (proj2 (proj2
             (analyzeDocument_failure Scenario.browserGroq Scenario.refusing
                Scenario.analysed (Some [Scenario.scan]) Scenario.scan Hfile
                (or_introl (ex_intro _ UploadFailed Hupload))))))))).
  - exact (proj2 (proj2 (proj2 (proj2 (proj2 (proj2
             (analyzeDocument_failure Scenario.browserGroq Scenario.degraded
                initial (Some [Scenario.scan]) Scenario.scan Hfile
                (or_intror
                   (ex_intro _ Scenario.noticeUrl
                      (ex_intro _ (Rejection (lit "model not found"))
                         (conj Huploaded Hvision))))))))))).
Defined.

(** ** Failures stay inside their flow *)

Section Failures.

Context (groq : option Groq) (w : World) (s : Session).

(** C7.  Whatever makes a collaborator call of a flow fail (a
    missing client, a rejected request or a response that is not a
    2xx one, a status other than 200 in the body of the translation
    service), the handler of the flow catches it: it returns
    normally, the error field holds the one fixed text of that flow,
    and the loading flag of the flow is false again (the translation
    flow has none and leaves both flags alone).  No request is sent
    a second time: the chat and the translation flow send at most
    one request, the analysis flow at most its two different ones. *)
Theorem failures_contained :
  (forall e,
      trim (inputMessage s) <> [] -> isLoading s = false ->
      result w (getGroqChatCompletion groq
                  (messages s ++ [userMessage (inputMessage s)])) = Threw e ->
      let r := sendMessage groq w s in
      error (final r) = Some chatErrorText /\
      isLoading (final r) = false /\
      outcome r = Returned tt /\
      length (issued r) <= 1) /\
  (forall i m e,
      selectedLanguage s <> lit "en" -> messages s !! i = Some m ->
      truthy_opt (translatedContent m) = false ->
      result w (translateText (content m) (selectedLanguage s)) = Threw e ->
      let r := toggleTranslation w i s in
      error (final r) = Some translationErrorText /\
      isLoading (final r) = isLoading s /\
      isAnalyzing (final r) = isAnalyzing s /\
      outcome r = Returned tt /\
      length (issued r) <= 1) /\
  (forall files file,
      files ≫= head = Some file ->
      (exists e, result w (uploadImage file) = Threw e) \/
      (exists imageUrl e,
          result w (uploadImage file) = Returned imageUrl /\
          result w (getGroqVisionAnalysis groq imageUrl) = Threw e) ->
      let r := analyzeDocument groq w files s in
      error (final r) = Some analysisErrorText /\
      isAnalyzing (final r) = false /\
      outcome r = Returned tt /\
      length (issued r) <= 2 /\
      NoDup (issued r)).
Proof.
  split; [|split].
  - intros e Hdraft Hidle Hfail r. subst r.
    unfold sendMessage, handleSendMessage.
    destruct (trim (inputMessage s)) as [|c0 rest]; [done|].
    rewrite Hidle. simpl.
    rewrite run_finally, run_try_catch, run_bind, run_await.
    unfold andFinally, orCatch, andThen.
    rewrite outcome_run, Hfail. simpl.
    repeat split; rewrite ?app_nil_r.
    unfold getGroqChatCompletion. destruct groq; simpl; [|lia].
    destruct (w (GroqChat _)); simpl; lia.
  - intros i m e Hlang Hm Hnone Hfail r. subst r.
    rewrite (toggleTranslation_fetch w i s m Hlang Hm Hnone), Hfail. simpl.
    repeat split. destruct (isWellFormed (content m)); simpl; lia.
  - intros files file Hfile Hfail r. subst r.
    rewrite (analyzeDocument_run groq w s files file Hfile).
    destruct Hfail as [[e ->] | (imageUrl & e & -> & ->)]; simpl.
    + repeat split; [lia|]. apply NoDup_singleton.
    + repeat split.
      * destruct groq; simpl; lia.
      * destruct groq; [|apply NoDup_singleton].
        apply NoDup_cons. split; [|apply NoDup_singleton].
        intros Hin. apply list_elem_of_singleton in Hin. discriminate.
Qed.

End Failures.

Lemma failures_contained_witness :
  (* the client is missing *)
  (error (final (sendMessage None Scenario.online Scenario.asking)) =
     Some chatErrorText /\
   isLoading (final (sendMessage None Scenario.online Scenario.asking)) = false) /\
  (* the network is down *)
  outcome (sendMessage Scenario.browserGroq Scenario.offline Scenario.asking) =
    Returned tt /\
  (* the translation service answers 503 *)
  error (final (toggleTranslation Scenario.refusing 0 Scenario.hindi)) =
    Some translationErrorText /\
  (* the translation service answers 200 with status 403 in the body *)
  error (final (toggleTranslation Scenario.degraded 0 Scenario.hindi)) =
    Some translationErrorText /\
  (* the upload is refused *)
  isAnalyzing (final (analyzeDocument Scenario.browserGroq Scenario.refusing
                        (Some [Scenario.scan]) initial)) = false /\
  (* the upload works, the vision call has no client *)
  error (final (analyzeDocument None Scenario.online
                  (Some [Scenario.scan]) initial)) = Some analysisErrorText.
Proof.
  assert (Hdraft : trim (inputMessage Scenario.asking) <> [])
    by (vm_compute; discriminate).
  assert (Hidle : isLoading Scenario.asking = false) by reflexivity.
  assert (Hlang : selectedLanguage Scenario.hindi <> lit "en")
    by (vm_compute; discriminate).
  assert (Hm : messages Scenario.hindi !! 0 = Some Scenario.hello) by reflexivity.
  assert (Hnone : truthy_opt (translatedContent Scenario.hello) = false)
    by reflexivity.
  assert (Hfile : Some [Scenario.scan] ≫= head = Some Scenario.scan)
    by reflexivity.
  pose proof (proj1 (failures_contained None Scenario.online Scenario.asking)
                GroqNotInitialized Hdraft Hidle eq_refl) as (Hinit & Hflag & _).
  pose proof (proj1 (failures_contained Scenario.browserGroq Scenario.offline
                       Scenario.asking)
                (Rejection (lit "Failed to fetch")) Hdraft Hidle eq_refl)
    as (_ & _ & Hcaught & _).
  pose proof (proj1 (proj2 (failures_contained None Scenario.refusing
                              Scenario.hindi))
                0 Scenario.hello (HttpError 503) Hlang Hm Hnone eq_refl)
    as (Hhttp & _).
  pose proof (proj1 (proj2 (failures_contained None Scenario.degraded
                              Scenario.hindi))
                0 Scenario.hello (TranslationApiError 403) Hlang Hm Hnone eq_refl)
    as (Hstatus & _).
  pose proof (proj2 (proj2 (failures_contained Scenario.browserGroq
                              Scenario.refusing initial))
                (Some [Scenario.scan]) Scenario.scan Hfile
                (or_introl (ex_intro _ UploadFailed eq_refl)))
    as (_ & Hupload & _).
  pose proof (proj2 (proj2 (failures_contained None Scenario.online initial))
                (Some [Scenario.scan]) Scenario.scan Hfile
                (or_intror (ex_intro _ Scenario.noticeUrl
                              (ex_intro _ GroqNotInitialized
                                 (conj eq_refl eq_refl)))))
    as (Hvision & _).
  split; [by split|]. by repeat split.
Defined.

(** ** The scenarios of the specification *)

(** "What is bail?" from the initial transcript: the state at the
    first [await], then the final state after the reply "Bail is...". *)
Example scenario_bail :
  let paused := sync (handleSendMessage Scenario.browserGroq Scenario.asking)
                  Scenario.asking in
  let r := sendMessage Scenario.browserGroq Scenario.online Scenario.asking in
  messages paused.1 = [greeting; userMessage (lit "What is bail?")] /\
  isLoading paused.1 = true /\
  messages (final r) =
    [greeting; userMessage (lit "What is bail?"); botMessage (lit "Bail is...")] /\
  isLoading (final r) = false.
Proof. by repeat split. Qed.

(** "Hello" at index 0, Hindi selected: the first toggle asks the
    service, the second one swaps back and asks nothing. *)
Example scenario_hello :
  let r1 := toggleTranslation Scenario.online 0 Scenario.hindi in
  let r2 := toggleTranslation Scenario.online 0 (final r1) in
  messages (final r1) =
    [{| role := lit "assistant"; content := Scenario.namaste;
        translatedContent := Some (lit "Hello") |}] /\
  issued r1 = [FetchTranslation (lit "Hello") (lit "hi")] /\
  messages (final r2) =
    [{| role := lit "assistant"; content := lit "Hello";
        translatedContent := Some Scenario.namaste |}] /\
  issued r2 = [].
Proof. by repeat split. Qed.

(** A failed upload from the initial state: the loading flag goes up
    and down again, no result, the fixed error text. *)
Example scenario_upload_failure :
  let paused := sync (handleFileUpload Scenario.browserGroq (Some [Scenario.scan]))
                  initial in
  let r := analyzeDocument Scenario.browserGroq Scenario.offline
             (Some [Scenario.scan]) initial in
  isAnalyzing paused.1 = true /\
  isAnalyzing (final r) = false /\
  documentAnalysis (final r) = None /\
  error (final r) = Some analysisErrorText.
Proof. by repeat split. Qed.

(** * Further properties of the component *)

(** ** Trimming *)

Lemma trimStart_nil_iff (s : jsstring) :
  trimStart s = [] <-> forallb isWhiteSpace s = true.
Proof.
  induction s as [|c s IH]; simpl; [done|].
  destruct (isWhiteSpace c); simpl; [done|]. split; discriminate.
Qed.

Lemma trimStart_suffix (s : jsstring) : exists pre, s = pre ++ trimStart s.
Proof.
  induction s as [|c s [pre IH]]; simpl; [by exists []|].
  destruct (isWhiteSpace c); [|by exists []].
  exists (c :: pre). simpl. by rewrite <- IH.
Qed.

Lemma forallb_isWhiteSpace_rev (s : jsstring) :
  forallb isWhiteSpace (rev s) = forallb isWhiteSpace s.
Proof.
  induction s as [|c s IH]; simpl; [done|].
  rewrite forallb_app, IH. simpl. rewrite andb_true_r. apply andb_comm.
Qed.

(** [s.trim()] is empty exactly when [s] holds nothing but white space. *)
Lemma trim_nil_iff (s : jsstring) :
  trim s = [] <-> forallb isWhiteSpace s = true.
Proof.
  unfold trim, trimEnd. split.
  - intros H. apply (f_equal (@rev _)) in H. rewrite rev_involutive in H.
    simpl in H. apply trimStart_nil_iff in H.
    rewrite forallb_isWhiteSpace_rev in H.
    destruct (trimStart_suffix s) as [pre Hs].
    destruct (trimStart s) as [|c rest] eqn:E; [by apply trimStart_nil_iff|].
    exfalso. simpl in H. apply andb_true_iff in H as [Hc _].
    clear Hs. induction s as [|d s IH]; simpl in E; [done|].
    destruct (isWhiteSpace d) eqn:Hd; [by apply IH|].
    injection E as -> _. congruence.
  - intros H. apply trimStart_nil_iff in H. by rewrite H.
Qed.

(** ** More on the chat flow *)

Section ChatRuns.

Context (groq : option Groq) (w : World) (s : Session).

(** What is left of [handleSendMessage] after its first [await], run
    from any state [s']. *)
Lemma handleSendMessage_rest (s' : Session) :
  trim (inputMessage s) <> [] -> isLoading s = false ->
  let user := userMessage (inputMessage s) in
  run w (sync (handleSendMessage groq s) s).2 s' =
  {| final :=
       match result w (getGroqChatCompletion groq (messages s ++ [user])) with
       | Returned aiResponse =>
           setIsLoading false
             (setMessages (fun prev => prev ++ [botMessage aiResponse]) s')
       | Threw _ => setIsLoading false (setError (Some chatErrorText) s')
       end;
     issued := match groq with
               | Some _ => [GroqChat (messages s ++ [user])]
               | None => []
               end;
     outcome := Returned tt |}.
Proof.
  intros Hdraft Hidle user. subst user.
  rewrite getGroqChatCompletion_result.
  unfold handleSendMessage.
  destruct (trim (inputMessage s)) as [|c0 rest]; [done|].
  rewrite Hidle. simpl. unfold getGroqChatCompletion.
  destruct groq as [client|]; simpl; [|done].
  by destruct (w (GroqChat _)).
Qed.

Lemma handleSendMessage_started :
  trim (inputMessage s) <> [] -> isLoading s = false ->
  (sync (handleSendMessage groq s) s).1 =
  setError None
    (setIsLoading true
       (setInputMessage []
          (setMessages (fun prev => prev ++ [userMessage (inputMessage s)]) s))).
Proof.
  intros Hdraft Hidle. unfold handleSendMessage.
  destruct (trim (inputMessage s)) as [|c0 rest]; [done|].
  rewrite Hidle. simpl. unfold getGroqChatCompletion.
  by destruct groq.
Qed.

Lemma sendMessage_run :
  trim (inputMessage s) <> [] -> isLoading s = false ->
  let user := userMessage (inputMessage s) in
  let started :=
    setError None
      (setIsLoading true
         (setInputMessage [] (setMessages (fun prev => prev ++ [user]) s))) in
  sendMessage groq w s =
  {| final :=
       match result w (getGroqChatCompletion groq (messages s ++ [user])) with
       | Returned aiResponse =>
           setIsLoading false
             (setMessages (fun prev => prev ++ [botMessage aiResponse]) started)
       | Threw _ => setIsLoading false (setError (Some chatErrorText) started)
       end;
     issued := match groq with
               | Some _ => [GroqChat (messages s ++ [user])]
               | None => []
               end;
     outcome := Returned tt |}.
Proof.
  intros Hdraft Hidle user started. unfold sendMessage.
  rewrite run_sync, (handleSendMessage_rest _ Hdraft Hidle).
  by rewrite (handleSendMessage_started Hdraft Hidle).
Qed.

Lemma sendMessage_blocked :
  trim (inputMessage s) = [] \/ isLoading s = true ->
  sendMessage groq w s = untouched s.
Proof.
  unfold sendMessage, handleSendMessage.
  intros [-> | ->]; simpl; rewrite ?orb_true_r; auto.
Qed.

End ChatRuns.

Lemma or_else_nonempty (a : option jsstring) (b : jsstring) :
  b <> [] -> or_else a b <> [].
Proof.
  intros Hb. unfold or_else. destruct a as [[|c rest]|]; simpl; done.
Qed.

Section ChatExtras.

Context (groq : option Groq) (s : Session).

(** X1.  [sendMessage] does nothing exactly when the draft holds
    only white space (or nothing at all) or a chat request is in
    flight.  In every other case it changes the state. *)
Theorem sendMessage_blocked_iff (w : World) :
  sendMessage groq w s = untouched s <->
  forallb isWhiteSpace (inputMessage s) = true \/ isLoading s = true.
Proof.
  rewrite <- trim_nil_iff. split; [|apply sendMessage_blocked].
  intros Hsame.
  destruct (decide (trim (inputMessage s) = [])) as [|Hdraft]; [by left|].
  destruct (isLoading s) eqn:Hidle; [by right|]. exfalso.
  rewrite (sendMessage_run groq w s Hdraft Hidle) in Hsame.
  apply (f_equal (fun r => length (messages (final r)))) in Hsame.
  simpl in Hsame.
  destruct (result w (getGroqChatCompletion groq _)); simpl in Hsame;
    rewrite ?length_app in Hsame; simpl in Hsame; lia.
Qed.

(** X2.  A second [sendMessage] right after a first one does
    nothing, whatever the first one did: the first one has cleared
    the draft, or was itself held back by the loading flag. *)
Theorem sendMessage_twice (w1 w2 : World) :
  sendMessage groq w2 (final (sendMessage groq w1 s)) =
  untouched (final (sendMessage groq w1 s)).
Proof.
  destruct (decide (trim (inputMessage s) = [])) as [Hblank|Hdraft].
  { rewrite (sendMessage_blocked groq w1 s (or_introl Hblank)). simpl.
    by apply sendMessage_blocked; left. }
  destruct (isLoading s) eqn:Hidle.
  { rewrite (sendMessage_blocked groq w1 s (or_intror Hidle)). simpl.
    by apply sendMessage_blocked; right. }
  apply sendMessage_blocked. left.
  rewrite (sendMessage_run groq w1 s Hdraft Hidle). simpl.
  by destruct (result w1 (getGroqChatCompletion groq _)).
Qed.

(** X3.  A [sendMessage] that passes the guard sends one request
    when there is a client: the chat completion for the transcript of
    the render, every message as it is then (with the text it shows
    and its cached translation), followed by the new user message.
    Without a client it sends nothing. *)
Theorem sendMessage_request (w : World) :
  trim (inputMessage s) <> [] -> isLoading s = false ->
  issued (sendMessage groq w s) =
  match groq with
  | Some _ => [GroqChat (messages s ++ [userMessage (inputMessage s)])]
  | None => []
  end.
Proof.
  intros Hdraft Hidle. by rewrite (sendMessage_run groq w s Hdraft Hidle).
Qed.

(** X4.  Whatever the draft, the flags and the world: [sendMessage]
    returns normally, the old transcript is a prefix of the new one,
    the chat loading flag ends as it began, and the language, the
    analysis result and flag, the lawyers and the menu are not
    touched. *)
Theorem sendMessage_frame (w : World) :
  let r := sendMessage groq w s in
  outcome r = Returned tt /\
  messages s `prefix_of` messages (final r) /\
  isLoading (final r) = isLoading s /\
  selectedLanguage (final r) = selectedLanguage s /\
  documentAnalysis (final r) = documentAnalysis s /\
  isAnalyzing (final r) = isAnalyzing s /\
  lawyers (final r) = lawyers s /\
  showLawyers (final r) = showLawyers s /\
  isMenuOpen (final r) = isMenuOpen s.
Proof.
  intros r. subst r.
  destruct (decide (trim (inputMessage s) = [])) as [Hblank|Hdraft].
  { rewrite (sendMessage_blocked groq w s (or_introl Hblank)). by repeat split. }
  destruct (isLoading s) eqn:Hidle.
  { rewrite (sendMessage_blocked groq w s (or_intror Hidle)). by repeat split. }
  rewrite (sendMessage_run groq w s Hdraft Hidle). simpl.
  destruct (result w (getGroqChatCompletion groq _)); simpl;
    repeat split; try done.
  - rewrite <- app_assoc. by apply prefix_app_r.
  - by apply prefix_app_r.
Qed.

(** X5.  The part of [handleSendMessage] after its [await] works on
    the state it finds, not on the one it left: resumed in any state
    [s'], a reply is appended to the transcript of [s'] and a failure
    sets the error text over [s']; the draft and every other field
    of [s'] stay, and only the chat loading flag is set to false. *)
Theorem sendMessage_reply_appends (w : World) (s' : Session) :
  trim (inputMessage s) <> [] -> isLoading s = false ->
  let r := run w (sync (handleSendMessage groq s) s).2 s' in
  match result w (getGroqChatCompletion groq
                    (messages s ++ [userMessage (inputMessage s)])) with
  | Returned aiResponse =>
      final r = setIsLoading false
                  (setMessages (fun prev => prev ++ [botMessage aiResponse]) s') /\
      messages (final r) = messages s' ++ [botMessage aiResponse]
  | Threw _ =>
      final r = setIsLoading false (setError (Some chatErrorText) s') /\
      messages (final r) = messages s'
  end.
Proof.
  intros Hdraft Hidle r. subst r.
  rewrite (handleSendMessage_rest groq w s s' Hdraft Hidle). simpl.
  by destruct (result w (getGroqChatCompletion groq _)).
Qed.

End ChatExtras.

(** X6.  A text that [getGroqChatCompletion] or
    [getGroqVisionAnalysis] returns is never empty: an absent or empty
    completion is replaced by the fallback sentence. *)
Theorem completion_never_empty (groq : option Groq) (w : World) :
  (forall context text,
      result w (getGroqChatCompletion groq context) = Returned text ->
      text <> []) /\
  (forall imageUrl text,
      result w (getGroqVisionAnalysis groq imageUrl) = Returned text ->
      text <> []).
Proof.
  split.
  - intros context text. rewrite getGroqChatCompletion_result.
    destruct groq; [|done]. destruct (w (GroqChat context)); [|done].
    intros [= <-]. by apply or_else_nonempty.
  - intros imageUrl text. rewrite getGroqVisionAnalysis_result.
    destruct groq; [|done]. destruct (w (GroqVision imageUrl)); [|done].
    intros [= <-]. by apply or_else_nonempty.
Qed.

(** ** More on the translation flow *)

Lemma swapTranslation_twice (m : Message) (t : jsstring) :
  translatedContent m = Some t -> swapTranslation (swapTranslation m) = m.
Proof. intros Ht. destruct m; simpl in *. subst. reflexivity. Qed.

(** Every run of [toggleTranslation], by cases. *)
Lemma toggleTranslation_cases (w : World) (i : nat) (s : Session) :
  toggleTranslation w i s = untouched s \/
  toggleTranslation w i s =
    {| final := s; issued := []; outcome := Threw UndefinedProperty |} \/
  exists m,
    messages s !! i = Some m /\ selectedLanguage s <> lit "en" /\
    ((truthy_opt (translatedContent m) = true /\
      toggleTranslation w i s =
        untouched (setMessages (fun _ => <[i := swapTranslation m]> (messages s)) s)) \/
     (truthy_opt (translatedContent m) = false /\
      exists translated,
        result w (translateText (content m) (selectedLanguage s)) =
          Returned translated /\
        toggleTranslation w i s =
          {| final := setMessages
                        (fun _ => <[i := translatedMessage m translated]> (messages s)) s;
             issued := [FetchTranslation (content m) (selectedLanguage s)];
             outcome := Returned tt |}) \/
     (truthy_opt (translatedContent m) = false /\
      toggleTranslation w i s =
        {| final := setError (Some translationErrorText) s;
           issued := if isWellFormed (content m)
                     then [FetchTranslation (content m) (selectedLanguage s)]
                     else [];
           outcome := Returned tt |})).
Proof.
  destruct (decide (selectedLanguage s = lit "en")) as [Hen|Hlang].
  { left. unfold toggleTranslation, handleTranslateMessage, strict_eq.
    by rewrite bool_decide_eq_true_2. }
  destruct (messages s !! i) as [m|] eqn:Hm.
  - right. right. exists m. split; [done|]. split; [done|].
    destruct (truthy_opt (translatedContent m)) eqn:Hc.
    + left. split; [done|]. by apply toggleTranslation_cached.
    + right. rewrite (toggleTranslation_fetch w i s m Hlang Hm Hc).
      destruct (result w (translateText _ _)) as [translated|e] eqn:Hr.
      * left. split; [done|]. exists translated. split; [done|].
        rewrite translateText_result in Hr.
        by destruct (isWellFormed (content m)).
      * right. by split.
  - right. left. unfold toggleTranslation, handleTranslateMessage, strict_eq.
    rewrite bool_decide_eq_false_2 by done. by rewrite Hm.
Qed.

Section TranslationExtras.

Context (w : World) (i : nat) (s : Session).

(** X7.  Whatever the index, the language and the world:
    [toggleTranslation] keeps the length of the transcript, the role
    of every message and every message at another index; it leaves
    the draft, both loading flags, the language, the analysis result,
    the lawyers and the menu alone; the error field is either kept or
    set to the text of the translation flow. *)
Theorem toggleTranslation_frame :
  let r := toggleTranslation w i s in
  length (messages (final r)) = length (messages s) /\
  role <$> messages (final r) = role <$> messages s /\
  (forall j, j <> i -> messages (final r) !! j = messages s !! j) /\
  (error (final r) = error s \/ error (final r) = Some translationErrorText) /\
  inputMessage (final r) = inputMessage s /\
  isLoading (final r) = isLoading s /\
  isAnalyzing (final r) = isAnalyzing s /\
  selectedLanguage (final r) = selectedLanguage s /\
  documentAnalysis (final r) = documentAnalysis s /\
  lawyers (final r) = lawyers s /\
  showLawyers (final r) = showLawyers s /\
  isMenuOpen (final r) = isMenuOpen s.
Proof.
  intros r. subst r.
  assert (Hins : forall m m', messages s !! i = Some m -> role m' = role m ->
            let l := <[i := m']> (messages s) in
            length l = length (messages s) /\
            role <$> l = role <$> messages s /\
            (forall j, j <> i -> l !! j = messages s !! j)).
  { intros m m' Hm Hrole. simpl. split; [apply length_insert|]. split.
    - rewrite list_fmap_insert. apply list_insert_id.
      by rewrite list_lookup_fmap, Hm, Hrole.
    - intros j Hj. by apply list_lookup_insert_ne. }
  destruct (toggleTranslation_cases w i s)
    as [-> | [-> | (m & Hm & Hlang & [[_ ->] | [(_ & t & _ & ->) | [_ ->]]])]];
    simpl; try by (repeat split; auto).
  - destruct (Hins m (swapTranslation m) Hm eq_refl) as (? & ? & ?).
    repeat split; auto.
  - destruct (Hins m (translatedMessage m t) Hm eq_refl) as (? & ? & ?).
    repeat split; auto.
Qed.

(** X8.  For a message with a cached translation, a click does not
    look at which language is selected, as long as it is not "en": it
    sends no request and leaves the same transcript as under any other
    such language.  A translation cached for one language is shown
    under every other. *)
Theorem toggleTranslation_ignores_language (m : Message) (L : jsstring) :
  selectedLanguage s <> lit "en" -> L <> lit "en" ->
  messages s !! i = Some m ->
  truthy_opt (translatedContent m) = true ->
  let r := toggleTranslation w i s in
  let r' := toggleTranslation w i (setSelectedLanguage L s) in
  issued r' = [] /\
  messages (final r') = messages (final r) /\
  messages (final r') !! i = Some (swapTranslation m).
Proof.
  intros Hlang HL Hm Hc r r'. subst r r'.
  rewrite (toggleTranslation_cached w i s m Hlang Hm Hc).
  rewrite (toggleTranslation_cached w i (setSelectedLanguage L s) m HL Hm Hc).
  simpl. repeat split. apply list_lookup_insert_eq. by eapply lookup_lt_Some.
Qed.

(** X9.  The label of a message's button tells what a click does:
    under "Show Original" it sends nothing; under "Translate" it
    sends the request to translate the text shown, provided that text
    has no unpaired surrogate, and nothing when it has one. *)
Theorem translateButton_label (m : Message) (label : jsstring) :
  messages s !! i = Some m ->
  translateButton s m = Some label ->
  (label = lit "Translate" /\
   issued (toggleTranslation w i s) =
     if isWellFormed (content m)
     then [FetchTranslation (content m) (selectedLanguage s)]
     else []) \/
  (label = lit "Show Original" /\
   issued (toggleTranslation w i s) = []).
Proof.
  intros Hm. unfold translateButton, strict_eq.
  destruct (bool_decide (role m = lit "assistant")); simpl; [|done].
  destruct (bool_decide (selectedLanguage s = lit "en")) eqn:Hen; simpl; [done|].
  apply bool_decide_eq_false in Hen.
  destruct (truthy_opt (translatedContent m)) eqn:Hc; intros [= <-].
  - right. split; [done|]. by rewrite (toggleTranslation_cached w i s m).
  - left. split; [done|]. by rewrite (toggleTranslation_fetch w i s m).
Qed.

(** X10.  For a message whose text and cached translation are both
    non-empty, any number of clicks sends no request: after an even
    number the state is the one before the first click, after an odd
    number it is that state with the two texts of the message swapped. *)
Theorem toggleTimes_swaps (m : Message) (t : jsstring) (n : nat) :
  selectedLanguage s <> lit "en" ->
  messages s !! i = Some m ->
  translatedContent m = Some t -> t <> [] -> content m <> [] ->
  let r := toggleTimes w i n s in
  issued r = [] /\
  outcome r = Returned tt /\
  final r = if Nat.even n then s
            else setMessages (fun _ => <[i := swapTranslation m]> (messages s)) s.
Proof.
  intros Hlang Hm Ht Hne Hcontent.
  assert (Hlt : i < length (messages s)) by by eapply lookup_lt_Some.
  assert (Hc : truthy_opt (translatedContent m) = true)
    by (rewrite Ht; by destruct t).
  assert (Hc' : truthy_opt (translatedContent (swapTranslation m)) = true)
    by (simpl; by destruct (content m)).
  induction n as [|n IH]; [done|].
  rewrite Nat.even_succ, <- Nat.negb_even.
  destruct IH as (Hissued & _ & Hfinal). simpl.
  unfold after. rewrite Hissued, Hfinal. simpl.
  destruct (Nat.even n); simpl.
  - by rewrite (toggleTranslation_cached w i s m Hlang Hm Hc).
  - rewrite (toggleTranslation_cached w i _ (swapTranslation m)); simpl;
      [|done| by apply list_lookup_insert_eq |done].
    repeat split. rewrite list_insert_insert_eq.
    unfold setMessages at 1. simpl.
    rewrite (swapTranslation_twice m t Ht).
    rewrite list_insert_id by done. by destruct s.
Qed.

End TranslationExtras.

(** X11.  [translateText] returns a text exactly when the text to
    translate has no unpaired surrogate and the request is fulfilled
    with an [ok] response whose body can be read and carries the
    status 200; the text returned is then the one of the body.  The
    HTTP status number itself is not looked at.  It fails with a
    [URIError] exactly when the text has an unpaired surrogate, and
    then sends nothing; in every other case it sends exactly one
    request.  The state is never touched.  Bodies are those of the
    shape the service documents. *)
Theorem translateText_returns_iff
    (w : World) (text targetLang translated : jsstring) (s : Session) :
  (result w (translateText text targetLang) = Returned translated <->
   isWellFormed text = true /\
   exists response data,
     w (FetchTranslation text targetLang) = Fulfilled response /\
     ok response = true /\
     json response = Fulfilled data /\
     responseStatus data = 200%Z /\
     translatedText data = translated) /\
  (result w (translateText text targetLang) = Threw URIError <->
   isWellFormed text = false) /\
  issued (run w (translateText text targetLang) s) =
    (if isWellFormed text then [FetchTranslation text targetLang] else []) /\
  final (run w (translateText text targetLang) s) = s.
Proof.
  split; [|split].
  - rewrite translateText_result. split.
    + destruct (isWellFormed text); [|done].
      destruct (w (FetchTranslation text targetLang)) as [response|]; [|done].
      destruct (ok response) eqn:Hok; [|done].
      destruct (json response) as [data|] eqn:Hjson; [|done].
      destruct (responseStatus data =? 200)%Z eqn:Hst; [|done].
      intros [= <-]. split; [done|]. exists response, data.
      repeat split; auto. by apply Z.eqb_eq.
    + intros (-> & response & data & -> & -> & -> & Hst & <-).
      by rewrite Hst.
  - rewrite translateText_result. destruct (isWellFormed text); [|done].
    split; [|done].
    destruct (w (FetchTranslation text targetLang)) as [response|]; [|done].
    destruct (ok response); [|done].
    destruct (json response) as [data|]; [|done].
    by destruct (responseStatus data =? 200)%Z.
  - unfold translateText. destruct (isWellFormed text); simpl; [|done].
    destruct (w (FetchTranslation text targetLang)) as [[[] st [data|]]|];
      simpl; try done.
    by destruct (responseStatus data =? 200)%Z.
Qed.

(** X12.  [uploadImage] returns a url exactly when the request is
    fulfilled with an [ok] response whose body can be read; the url is
    then the one of the body.  Whatever the answer, exactly one
    request is sent, with the file, and the state is not touched. *)
Theorem uploadImage_returns_iff
    (w : World) (file : File) (location : jsstring) (s : Session) :
  (result w (uploadImage file) = Returned location <->
   exists response data,
     w (FetchUpload file) = Fulfilled response /\
     ok response = true /\
     json response = Fulfilled data /\
     url data = location) /\
  issued (run w (uploadImage file) s) = [FetchUpload file] /\
  final (run w (uploadImage file) s) = s.
Proof.
  split.
  - rewrite uploadImage_result. split.
    + destruct (w (FetchUpload file)) as [response|]; [|done].
      destruct (ok response) eqn:Hok; [|done].
      destruct (json response) as [data|] eqn:Hjson; [|done].
      intros [= <-]. by exists response, data.
    + by intros (response & data & -> & -> & -> & <-).
  - unfold uploadImage. simpl.
    by destruct (w (FetchUpload file)) as [[[] st [data|]]|].
Qed.

(** ** Two flows at once *)

(** X13.  A translation that arrives late undoes a chat round.  A
    click on "Translate" suspends at once, with the state untouched.
    If the user then types a message and sends it, and the chat round
    completes before the translation arrives, the arriving translation
    writes its own copy of the transcript, taken at the click: the
    translated message is there, the messages of the chat round are
    not. *)
Theorem translation_overwrites_chat
    (groq : option Groq) (w1 w2 : World) (i : nat) (s : Session)
    (m : Message) (draft translated : jsstring) :
  selectedLanguage s <> lit "en" ->
  messages s !! i = Some m ->
  truthy_opt (translatedContent m) = false ->
  isLoading s = false ->
  trim draft <> [] ->
  result w2 (translateText (content m) (selectedLanguage s)) = Returned translated ->
  let paused := sync (handleTranslateMessage s i) s in
  let chatted := final (sendMessage groq w1 (setInputMessage draft paused.1)) in
  let r := run w2 paused.2 chatted in
  paused.1 = s /\
  suspended paused.2 = true /\
  messages s ++ [userMessage draft] `prefix_of` messages chatted /\
  messages (final r) = <[i := translatedMessage m translated]> (messages s) /\
  length (messages (final r)) < length (messages chatted).
Proof.
  intros Hlang Hm Hnone Hidle Hdraft Hok paused chatted r.
  assert (Hwf : isWellFormed (content m) = true).
  { rewrite translateText_result in Hok.
    by destruct (isWellFormed (content m)). }
  assert (Hpaused : paused.1 = s /\ suspended paused.2 = true).
  { subst paused. unfold handleTranslateMessage, strict_eq, translateText.
    rewrite bool_decide_eq_false_2 by done. by rewrite Hm, Hnone, Hwf. }
  destruct Hpaused as [Hs Hsusp].
  assert (Hchat : messages s ++ [userMessage draft] `prefix_of` messages chatted).
  { subst chatted. rewrite Hs.
    rewrite (sendMessage_run groq w1 (setInputMessage draft s) Hdraft Hidle).
    simpl. destruct (result w1 (getGroqChatCompletion groq _)); simpl.
    - rewrite <- app_assoc. simpl.
      exists [botMessage a]. by rewrite <- app_assoc.
    - done. }
  assert (Hfinal : messages (final r) =
                   <[i := translatedMessage m translated]> (messages s)).
  { subst r paused. rewrite translateText_result, Hwf in Hok.
    unfold handleTranslateMessage, strict_eq.
    rewrite bool_decide_eq_false_2 by done. rewrite Hm, Hnone.
    unfold translateText. rewrite Hwf. simpl.
    destruct (w2 (FetchTranslation _ _)) as [[[] st [data|]]|]; simpl in *;
      try done.
    destruct (responseStatus data =? 200)%Z; [|done].
    by injection Hok as ->. }
  repeat split; try done.
  rewrite Hfinal, length_insert.
  apply prefix_length in Hchat. rewrite length_app in Hchat. simpl in Hchat. lia.
Qed.

(** ** More on the document analysis flow *)

Section AnalysisExtras.

Context (groq : option Groq) (w : World) (s : Session).

Lemma analyzeDocument_no_file (files : option (list File)) :
  files ≫= head = None -> analyzeDocument groq w files s = untouched s.
Proof. intros Hnone. unfold analyzeDocument, handleFileUpload. by rewrite Hnone. Qed.

(** X14.  When both steps succeed, [analyzeDocument] stores the text
    of the vision analysis as the result, which is never empty, clears
    the error and the loading flag, and has sent two requests: the
    upload of the file, then the vision analysis of the very url that
    the upload returned. *)
Theorem analyzeDocument_success
    (files : option (list File)) (file : File) (imageUrl analysis : jsstring) :
  files ≫= head = Some file ->
  result w (uploadImage file) = Returned imageUrl ->
  result w (getGroqVisionAnalysis groq imageUrl) = Returned analysis ->
  let r := analyzeDocument groq w files s in
  documentAnalysis (final r) = Some analysis /\
  analysis <> [] /\
  error (final r) = None /\
  isAnalyzing (final r) = false /\
  issued r = [FetchUpload file; GroqVision imageUrl] /\
  outcome r = Returned tt.
Proof.
  intros Hfile Hupload Hvision r. subst r.
  rewrite (analyzeDocument_run groq w s files file Hfile), Hupload, Hvision.
  simpl. repeat split.
  rewrite getGroqVisionAnalysis_result in Hvision.
  destruct groq; [|done]. destruct (w (GroqVision imageUrl)); [|done].
  injection Hvision as <-. by apply or_else_nonempty.
Qed.

(** X15.  Whatever the files and the world: [analyzeDocument]
    returns normally and leaves the transcript, the draft, the chat
    loading flag, the language, the lawyers and the menu alone.
    Without a first file it does nothing at all.  With one, the
    analysis loading flag ends false, the upload of that file is the
    first request, and it is the only one unless the upload returned
    a url. *)
Theorem analyzeDocument_frame (files : option (list File)) :
  let r := analyzeDocument groq w files s in
  outcome r = Returned tt /\
  messages (final r) = messages s /\
  inputMessage (final r) = inputMessage s /\
  isLoading (final r) = isLoading s /\
  selectedLanguage (final r) = selectedLanguage s /\
  lawyers (final r) = lawyers s /\
  showLawyers (final r) = showLawyers s /\
  isMenuOpen (final r) = isMenuOpen s /\
  match files ≫= head with
  | None => r = untouched s
  | Some file =>
      isAnalyzing (final r) = false /\
      head (issued r) = Some (FetchUpload file) /\
      (issued r = [FetchUpload file] \/
       exists imageUrl, result w (uploadImage file) = Returned imageUrl)
  end.
Proof.
  intros r. subst r. destruct (files ≫= head) as [file|] eqn:Hfile.
  - rewrite (analyzeDocument_run groq w s files file Hfile).
    destruct (result w (uploadImage file)) as [imageUrl|e]; simpl.
    + destruct (result w (getGroqVisionAnalysis groq imageUrl)); simpl;
        repeat split; right; by exists imageUrl.
    + repeat split. by left.
  - rewrite (analyzeDocument_no_file files Hfile). by repeat split.
Qed.

End AnalysisExtras.

(** ** The lawyer search *)

(** X16.  [searchLawyers] sends nothing and returns normally.  From
    any state it leaves the three fixed records, in their order, and
    the show flag set, and changes no other field; a second search
    changes nothing more. *)
Theorem searchLawyers_fixed (w : World) (s : Session) :
  let r := searchLawyers w s in
  issued r = [] /\
  outcome r = Returned tt /\
  lawyers (final r) = dummyLawyers /\
  length (lawyers (final r)) = 3 /\
  showLawyers (final r) = true /\
  final r = setShowLawyers true (setLawyers dummyLawyers s) /\
  setLawyers (lawyers s) (setShowLawyers (showLawyers s) (final r)) = s /\
  final (searchLawyers w (final r)) = final r.
Proof. intros r. subst r. destruct s. by repeat split. Qed.

(** ** The states that the controls can produce *)

Lemma insert_not_nil {A} (l : list A) (i : nat) (x : A) :
  l <> [] -> <[i := x]> l <> [].
Proof.
  intros Hl E. apply (f_equal length) in E. rewrite length_insert in E.
  by destruct l.
Qed.

Section Dispatch.

Context (groq : option Groq) (w : World) (s : Session).

Lemma sendMessage_cases :
  sendMessage groq w s = untouched s \/
  (trim (inputMessage s) <> [] /\ isLoading s = false /\
   exists tail,
     (tail = [] \/ exists text, text <> [] /\ tail = [botMessage text]) /\
     outcome (sendMessage groq w s) = Returned tt /\
     messages (final (sendMessage groq w s)) =
       messages s ++ userMessage (inputMessage s) :: tail /\
     isLoading (final (sendMessage groq w s)) = false /\
     isAnalyzing (final (sendMessage groq w s)) = isAnalyzing s /\
     selectedLanguage (final (sendMessage groq w s)) = selectedLanguage s).
Proof.
  destruct (decide (trim (inputMessage s) = [])) as [Hblank|Hdraft].
  { left. by apply sendMessage_blocked; left. }
  destruct (isLoading s) eqn:Hidle.
  { left. by apply sendMessage_blocked; right. }
  right. split; [done|]. split; [done|].
  rewrite (sendMessage_run groq w s Hdraft Hidle). simpl.
  destruct (result w (getGroqChatCompletion groq _)) as [text|e] eqn:Hr; simpl.
  - exists [botMessage text]. repeat split; [|by rewrite <- app_assoc].
    right. exists text. split; [|done].
    rewrite getGroqChatCompletion_result in Hr.
    destruct groq; [|done]. destruct (w (GroqChat _)); [|done].
    injection Hr as <-. by apply or_else_nonempty.
  - exists []. repeat split. by left.
Qed.

Lemma analyzeDocument_cases (files : option (list File)) :
  let r := analyzeDocument groq w files s in
  outcome r = Returned tt /\
  messages (final r) = messages s /\
  isLoading (final r) = isLoading s /\
  selectedLanguage (final r) = selectedLanguage s /\
  (isAnalyzing (final r) = false \/ final r = s).
Proof.
  intros r. subst r. destruct (files ≫= head) as [file|] eqn:Hfile.
  - rewrite (analyzeDocument_run groq w s files file Hfile).
    destruct (result w (uploadImage file)) as [imageUrl|e]; simpl.
    + destruct (result w (getGroqVisionAnalysis groq imageUrl)); simpl;
        repeat split; by left.
    + repeat split. by left.
  - rewrite (analyzeDocument_no_file groq w s files Hfile).
    repeat split. by right.
Qed.

Lemma enabled_translate (index : nat) :
  enabled s (ClickTranslate index) = true ->
  exists m, messages s !! index = Some m /\
            role m = lit "assistant" /\ selectedLanguage s <> lit "en".
Proof.
  simpl. destruct (messages s !! index) as [m|]; [|done].
  unfold translateButton, strict_eq.
  destruct (bool_decide (role m = lit "assistant")) eqn:Hrole; simpl; [|done].
  destruct (bool_decide (selectedLanguage s = lit "en")) eqn:Hen; simpl; [done|].
  intros _. exists m. split; [done|]. split.
  - by apply bool_decide_eq_true in Hrole.
  - by apply bool_decide_eq_false in Hen.
Qed.

Lemma dispatch_returns (ev : Event) :
  outcome (dispatch groq w ev s) = Returned tt \/
  exists index, ev = ClickTranslate index /\
                selectedLanguage s <> lit "en" /\
                length (messages s) <= index /\
                dispatch groq w ev s =
                {| final := s; issued := []; outcome := Threw UndefinedProperty |}.
Proof.
  destruct ev as [v|v| |index|files| |]; try (by left).
  - left. change (outcome (sendMessage groq w s) = Returned tt).
    destruct sendMessage_cases as [-> | (_ & _ & tail & _ & -> & _)]; done.
  - change (dispatch groq w (ClickTranslate index) s)
      with (toggleTranslation w index s).
    destruct (decide (selectedLanguage s = lit "en")) as [Hen|Hlang].
    { left. unfold toggleTranslation, handleTranslateMessage, strict_eq.
      by rewrite bool_decide_eq_true_2. }
    destruct (messages s !! index) as [m|] eqn:Hm.
    + left. destruct (truthy_opt (translatedContent m)) eqn:Hc.
      * by rewrite (toggleTranslation_cached w index s m).
      * by rewrite (toggleTranslation_fetch w index s m).
    + right. exists index. split; [done|]. split; [done|].
      split; [by apply lookup_ge_None|].
      unfold toggleTranslation, handleTranslateMessage, strict_eq.
      rewrite bool_decide_eq_false_2 by done. by rewrite Hm.
  - left. change (outcome (analyzeDocument groq w files s) = Returned tt).
    apply analyzeDocument_cases.
Qed.

Lemma dispatch_consistent (ev : Event) :
  consistent s -> enabled s ev = true ->
  consistent (final (dispatch groq w ev s)).
Proof.
  intros (Hidle & Hfree & Hlang & Hne & Hroles) Hen.
  destruct ev as [v|v| |index|files| |]; try (by repeat split).
  - simpl in Hen. apply bool_decide_eq_true in Hen. by repeat split.
  - change (dispatch groq w SubmitForm s) with (sendMessage groq w s).
    destruct sendMessage_cases
      as [-> | (_ & _ & tail & Htail & _ & Hm & Hl & Ha & HL)]; [by repeat split|].
    repeat split; try congruence.
    + rewrite Hm. by destruct (messages s).
    + rewrite Hm. apply Forall_app. split; [done|].
      apply Forall_cons. split; [by right|].
      destruct Htail as [-> | (text & _ & ->)]; [done|].
      apply Forall_cons. split; [by left | done].
  - change (dispatch groq w (ClickTranslate index) s)
      with (toggleTranslation w index s).
    destruct (enabled_translate index Hen) as (m & Hm & Hrole & HL).
    destruct (truthy_opt (translatedContent m)) eqn:Hc.
    + rewrite (toggleTranslation_cached w index s m HL Hm Hc). simpl.
      repeat split; try done.
      * by apply insert_not_nil.
      * apply Forall_insert; [done|]. by left.
    + rewrite (toggleTranslation_fetch w index s m HL Hm Hc).
      destruct (result w (translateText (content m) (selectedLanguage s)));
        simpl; repeat split; try done.
      * by apply insert_not_nil.
      * apply Forall_insert; [done|]. by left.
  - change (dispatch groq w (ChangeFile files) s)
      with (analyzeDocument groq w files s).
    destruct (analyzeDocument_cases files) as (_ & Hm & Hl & HL & Ha).
    repeat split; try congruence.
    destruct Ha as [Ha | ->]; done.
Qed.

Lemma dispatch_wellFilled (ev : Event) :
  translatesToText w -> wellFilled s -> wellFilled (final (dispatch groq w ev s)).
Proof.
  intros Hw Hs. unfold wellFilled in *.
  destruct ev as [v|v| |index|files| |]; try done.
  - change (dispatch groq w SubmitForm s) with (sendMessage groq w s).
    destruct sendMessage_cases
      as [-> | (Hdraft & _ & tail & Htail & _ & -> & _)]; [done|].
    apply Forall_app. split; [done|].
    apply Forall_cons. split.
    { split; [|done]. simpl. intros E. by rewrite E in Hdraft. }
    destruct Htail as [-> | (text & Htext & ->)]; [done|].
    apply Forall_cons. by split.
  - change (dispatch groq w (ClickTranslate index) s)
      with (toggleTranslation w index s).
    destruct (toggleTranslation_cases w index s)
      as [-> | [-> | (m & Hm & Hlang & [[Hc ->] | [(_ & t & Ht & ->) | [_ ->]]])]];
      simpl; try done.
    + pose proof (proj1 (Forall_lookup _ _) Hs index m Hm) as [Hcontent _].
      apply Forall_insert; [done|]. simpl. split.
      * destruct (translatedContent m) as [[|c rest]|]; done.
      * intros [= E]. done.
    + pose proof (proj1 (Forall_lookup _ _) Hs index m Hm) as [Hcontent _].
      apply Forall_insert; [done|]. simpl. split.
      * by eapply Hw.
      * intros [= E]. done.
  - change (dispatch groq w (ChangeFile files) s)
      with (analyzeDocument groq w files s).
    destruct (analyzeDocument_cases files) as (_ & -> & _). done.
Qed.

End Dispatch.

Lemma reachable_consistent_aux (groq : option Groq) (good : World -> Prop)
    (s : Session) :
  reachable groq good s -> consistent s.
Proof.
  induction 1 as [|s w ev _ IH _ Hen].
  - repeat split; try done.
    + simpl. unfold languages. constructor.
    + apply Forall_cons. split; [by left | done].
  - by apply dispatch_consistent.
Qed.

Lemma reachable_wellFilled_aux (groq : option Groq) (s : Session) :
  reachable groq translatesToText s -> wellFilled s.
Proof.
  induction 1 as [|s w ev _ IH Hw _].
  - apply Forall_cons. split; [|done]. split; [|done].
    vm_compute. discriminate.
  - by apply dispatch_wellFilled.
Qed.

Lemma toggleTranslation_back (w : World) (i : nat) (s : Session) (m : Message)
    (t : jsstring) :
  selectedLanguage s <> lit "en" ->
  messages s !! i = Some m ->
  translatedContent m = Some t -> t <> [] -> content m <> [] ->
  toggleTranslation w i s =
    untouched (setMessages (fun _ => <[i := swapTranslation m]> (messages s)) s) /\
  toggleTranslation w i (final (toggleTranslation w i s)) = untouched s.
Proof.
  intros Hlang Hm Ht Hne Hcontent.
  assert (Hlt : i < length (messages s)) by by eapply lookup_lt_Some.
  assert (H1 : toggleTranslation w i s =
               untouched (setMessages
                            (fun _ => <[i := swapTranslation m]> (messages s)) s)).
  { apply toggleTranslation_cached; [done..|]. rewrite Ht. by destruct t. }
  split; [done|]. rewrite H1. simpl.
  rewrite (toggleTranslation_cached w i _ (swapTranslation m)); simpl;
    [|done| by apply list_lookup_insert_eq | by destruct (content m)].
  f_equal. rewrite list_insert_insert_eq. unfold setMessages at 1. simpl.
  rewrite (swapTranslation_twice m t Ht).
  rewrite list_insert_id by done. by destruct s.
Qed.

Section Reachable.

Context (groq : option Groq).

(** X17.  No event that a render can deliver makes its handler
    reject.  The one handler that can reject at all is the click on a
    message's button, and only when it is called, with a language
    other than "en", for an index outside the transcript; it then
    changes nothing. *)
Theorem enabled_returns (w : World) (s : Session) (ev : Event) :
  (enabled s ev = true -> outcome (dispatch groq w ev s) = Returned tt) /\
  (outcome (dispatch groq w ev s) <> Returned tt ->
   exists index,
     ev = ClickTranslate index /\
     selectedLanguage s <> lit "en" /\
     length (messages s) <= index /\
     dispatch groq w ev s =
       {| final := s; issued := []; outcome := Threw UndefinedProperty |}).
Proof.
  destruct (dispatch_returns groq w s ev)
    as [Hret | (index & -> & Hlang & Hge & Hrun)].
  - split; [done|]. by intros [].
  - split; [|by intros _; exists index].
    intros Hen. destruct (enabled_translate s index Hen) as (m & Hm & _).
    apply lookup_lt_Some in Hm. lia.
Qed.

(** X18.  Every state that the controls produce from the first
    render, one completed event after the other and whatever the
    services answer, has both loading flags down, one of the five
    languages of the selector, a transcript that is not empty, and in
    it only assistant messages and user messages, the latter without
    a cached translation. *)
Theorem reachable_consistent (good : World -> Prop) (s : Session) :
  reachable groq good s ->
  isLoading s = false /\
  isAnalyzing s = false /\
  selectedLanguage s ∈ languages /\
  messages s <> [] /\
  Forall (fun m => role m = lit "assistant" \/
                   (role m = lit "user" /\ translatedContent m = None))
         (messages s).
Proof. apply reachable_consistent_aux. Qed.

(** X19.  As long as the translation service never returns an empty
    text, no state that the controls produce has a message that shows
    an empty text or caches one. *)
Theorem reachable_wellFilled (s : Session) :
  reachable groq translatesToText s ->
  Forall (fun m => content m <> [] /\ translatedContent m <> Some [])
         (messages s).
Proof. apply reachable_wellFilled_aux. Qed.

(** X20.  As long as the translation service never returns an empty
    text, in every state that the controls produce, two clicks in a
    row on a message that carries a cached translation send no
    request and leave the state as it was before the first one. *)
Theorem reachable_toggle_twice (w : World) (i : nat) (s : Session) (m : Message) :
  reachable groq translatesToText s ->
  selectedLanguage s <> lit "en" ->
  messages s !! i = Some m ->
  is_Some (translatedContent m) ->
  let r1 := toggleTranslation w i s in
  let r2 := toggleTranslation w i (final r1) in
  issued r1 = [] /\ issued r2 = [] /\ final r2 = s.
Proof.
  intros Hreach Hlang Hm [t Ht] r1 r2. subst r1 r2.
  pose proof (reachable_wellFilled_aux groq s Hreach) as Hfilled.
  pose proof (proj1 (Forall_lookup _ _) Hfilled i m Hm) as [Hcontent Hcache].
  assert (Hne : t <> []) by (intros ->; by apply Hcache).
  destruct (toggleTranslation_back w i s m t Hlang Hm Ht Hne Hcontent)
    as [H1 H2].
  rewrite H2, H1. by repeat split.
Qed.

End Reachable.

(** ** Instances *)

Lemma online_translatesToText : translatesToText Scenario.online.
Proof.
  intros text targetLang translated. rewrite translateText_result.
  destruct (isWellFormed text); [|done]. simpl.
  intros [= <-]. discriminate.
Qed.

Lemma tour_reachable (good : World -> Prop) :
  good Scenario.online -> reachable Scenario.browserGroq good Tour.shown.
Proof.
  intros Hgood. unfold Tour.shown, Tour.selected.
  apply reachable_step; [|done|reflexivity].
  apply reachable_step; [|done|reflexivity].
  apply reachable_initial.
Qed.

Lemma sendMessage_request_witness :
  issued (sendMessage Scenario.browserGroq Scenario.online Scenario.asking) =
    [GroqChat [greeting; userMessage (lit "What is bail?")]] /\
  issued (sendMessage None Scenario.online Scenario.asking) = [].
Proof.
  assert (Hdraft : trim (inputMessage Scenario.asking) <> [])
    by (vm_compute; discriminate).
  assert (Hidle : isLoading Scenario.asking = false) by reflexivity.
  split.
  - exact (sendMessage_request Scenario.browserGroq Scenario.asking
             Scenario.online Hdraft Hidle).
  - exact (sendMessage_request None Scenario.asking Scenario.online Hdraft Hidle).
Defined.

Lemma sendMessage_reply_appends_witness :
  messages (final (run Scenario.online
                     (sync (handleSendMessage Scenario.browserGroq Scenario.asking)
                        Scenario.asking).2 Scenario.translated)) =
    messages Scenario.translated ++ [botMessage (lit "Bail is...")] /\
  messages (final (run Scenario.offline
                     (sync (handleSendMessage Scenario.browserGroq Scenario.asking)
                        Scenario.asking).2 Scenario.translated)) =
    messages Scenario.translated.
Proof.
  assert (Hdraft : trim (inputMessage Scenario.asking) <> [])
    by (vm_compute; discriminate).
  assert (Hidle : isLoading Scenario.asking = false) by reflexivity.
  split.
  - exact (proj2 (sendMessage_reply_appends Scenario.browserGroq Scenario.asking
                    Scenario.online Scenario.translated Hdraft Hidle)).
  - exact (proj2 (sendMessage_reply_appends Scenario.browserGroq Scenario.asking
                    Scenario.offline Scenario.translated Hdraft Hidle)).
Defined.

Lemma completion_never_empty_witness :
  result Tour.mute (getGroqChatCompletion Scenario.browserGroq [greeting]) =
    Returned chatFallback /\
  chatFallback <> [] /\
  result Tour.mute (getGroqVisionAnalysis Scenario.browserGroq Scenario.noticeUrl) =
    Returned visionFallback /\
  visionFallback <> [].
Proof.
  assert (Hchat : result Tour.mute
                    (getGroqChatCompletion Scenario.browserGroq [greeting]) =
                  Returned chatFallback) by reflexivity.
  assert (Hvision : result Tour.mute
                      (getGroqVisionAnalysis Scenario.browserGroq
                         Scenario.noticeUrl) =
                    Returned visionFallback) by reflexivity.
  split; [exact Hchat|]. split; [|split; [exact Hvision|]].
  - exact (proj1 (completion_never_empty Scenario.browserGroq Tour.mute)
             _ _ Hchat).
  - exact (proj2 (completion_never_empty Scenario.browserGroq Tour.mute)
             _ _ Hvision).
Defined.

Lemma toggleTranslation_frame_witness :
  length (messages Tour.chatted) = 3 /\
  messages (final (toggleTranslation Scenario.online 2 Tour.chatted)) !! 2 =
    Some (translatedMessage (botMessage (lit "Bail is...")) Scenario.namaste) /\
  messages (final (toggleTranslation Scenario.online 2 Tour.chatted)) !! 0 =
    messages Tour.chatted !! 0 /\
  messages (final (toggleTranslation Scenario.online 2 Tour.chatted)) !! 1 =
    messages Tour.chatted !! 1.
Proof.
  pose proof (toggleTranslation_frame Scenario.online 2 Tour.chatted)
    as (_ & _ & Hothers & _).
  split; [reflexivity|]. split; [reflexivity|]. split.
  - apply Hothers. lia.
  - apply Hothers. lia.
Defined.

Lemma toggleTranslation_ignores_language_witness :
  issued (toggleTranslation Scenario.online 0
            (setSelectedLanguage (lit "bn") Scenario.translated)) = [] /\
  messages (final (toggleTranslation Scenario.online 0
                     (setSelectedLanguage (lit "bn") Scenario.translated))) !! 0 =
    Some {| role := lit "assistant"; content := lit "Hello";
            translatedContent := Some Scenario.namaste |}.
Proof.
  assert (Hlang : selectedLanguage Scenario.translated <> lit "en")
    by (vm_compute; discriminate).
  assert (HL : lit "bn" <> lit "en") by (vm_compute; discriminate).
  assert (Hm : messages Scenario.translated !! 0 =
               Some (translatedMessage Scenario.hello Scenario.namaste))
    by reflexivity.
  assert (Hc : truthy_opt (translatedContent
                             (translatedMessage Scenario.hello Scenario.namaste))
               = true) by reflexivity.
  pose proof (toggleTranslation_ignores_language Scenario.online 0
                Scenario.translated _ (lit "bn") Hlang HL Hm Hc)
    as (Hissued & _ & Hshown).
  split; [exact Hissued | exact Hshown].
Defined.

Lemma translateButton_label_witness :
  translateButton Scenario.hindi Scenario.hello = Some (lit "Translate") /\
  issued (toggleTranslation Scenario.online 0 Scenario.hindi) =
    [FetchTranslation (lit "Hello") (lit "hi")] /\
  translateButton Scenario.translated
    (translatedMessage Scenario.hello Scenario.namaste) =
    Some (lit "Show Original") /\
  issued (toggleTranslation Scenario.online 0 Scenario.translated) = [] /\
  translateButton Scenario.garbled (botMessage Scenario.lone) =
    Some (lit "Translate") /\
  issued (toggleTranslation Scenario.online 2 Scenario.garbled) = [].
Proof.
  assert (Hm : messages Scenario.hindi !! 0 = Some Scenario.hello) by reflexivity.
  assert (Hb : translateButton Scenario.hindi Scenario.hello =
               Some (lit "Translate")) by reflexivity.
  assert (Hm' : messages Scenario.translated !! 0 =
                Some (translatedMessage Scenario.hello Scenario.namaste))
    by reflexivity.
  assert (Hb' : translateButton Scenario.translated
                  (translatedMessage Scenario.hello Scenario.namaste) =
                Some (lit "Show Original")) by reflexivity.
  assert (Hm2 : messages Scenario.garbled !! 2 = Some (botMessage Scenario.lone))
    by reflexivity.
  assert (Hb2 : translateButton Scenario.garbled (botMessage Scenario.lone) =
                Some (lit "Translate")) by reflexivity.
  split; [exact Hb|]. split; [|split; [exact Hb'|split; [|split; [exact Hb2|]]]].
  - destruct (translateButton_label Scenario.online 0 Scenario.hindi _ _ Hm Hb)
      as [[_ H] | [Hlabel _]]; [exact H | discriminate Hlabel].
  - destruct (translateButton_label Scenario.online 0 Scenario.translated _ _
                Hm' Hb')
      as [[Hlabel _] | [_ H]]; [discriminate Hlabel | exact H].
  - destruct (translateButton_label Scenario.online 2 Scenario.garbled _ _
                Hm2 Hb2)
      as [[_ H] | [Hlabel _]]; [exact H | discriminate Hlabel].
Defined.

Lemma toggleTimes_swaps_witness :
  issued (toggleTimes Scenario.offline 0 3 Scenario.translated) = [] /\
  messages (final (toggleTimes Scenario.offline 0 3 Scenario.translated)) !! 0 =
    Some {| role := lit "assistant"; content := lit "Hello";
            translatedContent := Some Scenario.namaste |} /\
  final (toggleTimes Scenario.offline 0 4 Scenario.translated) =
    Scenario.translated.
Proof.
  assert (Hlang : selectedLanguage Scenario.translated <> lit "en")
    by (vm_compute; discriminate).
  assert (Hm : messages Scenario.translated !! 0 =
               Some (translatedMessage Scenario.hello Scenario.namaste))
    by reflexivity.
  assert (Ht : translatedContent (translatedMessage Scenario.hello Scenario.namaste)
               = Some (lit "Hello")) by reflexivity.
  assert (Hne : lit "Hello" <> []) by (vm_compute; discriminate).
  assert (Hcontent : content (translatedMessage Scenario.hello Scenario.namaste)
                     <> []) by (vm_compute; discriminate).
  pose proof (toggleTimes_swaps Scenario.offline 0 Scenario.translated _ _ 3
                Hlang Hm Ht Hne Hcontent) as (H3 & _ & _).
  pose proof (toggleTimes_swaps Scenario.offline 0 Scenario.translated _ _ 4
                Hlang Hm Ht Hne Hcontent) as (_ & _ & H4).
  split; [exact H3|]. split; [reflexivity | exact H4].
Defined.

Lemma translation_overwrites_chat_witness :
  length (messages (final (sendMessage Scenario.browserGroq Scenario.online
                             (setInputMessage (lit "What is bail?")
                                Scenario.hindi)))) = 3 /\
  messages (final (run Scenario.online
                     (sync (handleTranslateMessage Scenario.hindi 0)
                        Scenario.hindi).2
                     (final (sendMessage Scenario.browserGroq Scenario.online
                               (setInputMessage (lit "What is bail?")
                                  Scenario.hindi))))) =
    [translatedMessage Scenario.hello Scenario.namaste].
Proof.
  assert (Hlang : selectedLanguage Scenario.hindi <> lit "en")
    by (vm_compute; discriminate).
  assert (Hm : messages Scenario.hindi !! 0 = Some Scenario.hello) by reflexivity.
  assert (Hnone : truthy_opt (translatedContent Scenario.hello) = false)
    by reflexivity.
  assert (Hidle : isLoading Scenario.hindi = false) by reflexivity.
  assert (Hdraft : trim (lit "What is bail?") <> [])
    by (vm_compute; discriminate).
  assert (Hok : result Scenario.online
                  (translateText (content Scenario.hello)
                     (selectedLanguage Scenario.hindi)) =
                Returned Scenario.namaste) by reflexivity.
  pose proof (translation_overwrites_chat Scenario.browserGroq Scenario.online
                Scenario.online 0 Scenario.hindi Scenario.hello
                (lit "What is bail?") Scenario.namaste
                Hlang Hm Hnone Hidle Hdraft Hok) as (_ & _ & _ & Hfinal & _).
  split; [reflexivity | exact Hfinal].
Defined.

Lemma analyzeDocument_success_witness :
  documentAnalysis (final (analyzeDocument Scenario.browserGroq Scenario.online
                             (Some [Scenario.scan]) initial)) =
    Some (lit "A summons.") /\
  issued (analyzeDocument Scenario.browserGroq Scenario.online
            (Some [Scenario.scan]) initial) =
    [FetchUpload Scenario.scan; GroqVision Scenario.noticeUrl].
Proof.
  assert (Hfile : Some [Scenario.scan] ≫= head = Some Scenario.scan)
    by reflexivity.
  assert (Hupload : result Scenario.online (uploadImage Scenario.scan) =
                    Returned Scenario.noticeUrl) by reflexivity.
  assert (Hvision : result Scenario.online
                      (getGroqVisionAnalysis Scenario.browserGroq
                         Scenario.noticeUrl) =
                    Returned (lit "A summons.")) by reflexivity.
  pose proof (analyzeDocument_success Scenario.browserGroq Scenario.online initial
                (Some [Scenario.scan]) Scenario.scan Scenario.noticeUrl
                (lit "A summons.") Hfile Hupload Hvision)
    as (Hresult & _ & _ & _ & Hissued & _).
  split; [exact Hresult | exact Hissued].
Defined.

Lemma enabled_returns_witness :
  enabled Scenario.hindi (ClickTranslate 0) = true /\
  outcome (dispatch Scenario.browserGroq Scenario.offline (ClickTranslate 0)
             Scenario.hindi) = Returned tt /\
  enabled Scenario.hindi (ClickTranslate 1) = false /\
  exists index,
    ClickTranslate 1 = ClickTranslate index /\
    selectedLanguage Scenario.hindi <> lit "en" /\
    length (messages Scenario.hindi) <= index /\
    dispatch Scenario.browserGroq Scenario.offline (ClickTranslate 1)
      Scenario.hindi =
    {| final := Scenario.hindi; issued := [];
       outcome := Threw UndefinedProperty |}.
Proof.
  assert (Hen : enabled Scenario.hindi (ClickTranslate 0) = true) by reflexivity.
  assert (Hthrew : outcome (dispatch Scenario.browserGroq Scenario.offline
                              (ClickTranslate 1) Scenario.hindi) <> Returned tt)
    by (vm_compute; discriminate).
  split; [exact Hen|]. split; [|split; [reflexivity|]].
  - exact (proj1 (enabled_returns Scenario.browserGroq Scenario.offline
                    Scenario.hindi (ClickTranslate 0)) Hen).
  - exact (proj2 (enabled_returns Scenario.browserGroq Scenario.offline
                    Scenario.hindi (ClickTranslate 1)) Hthrew).
Defined.

Lemma reachable_consistent_witness :
  isLoading Tour.shown = false /\
  isAnalyzing Tour.shown = false /\
  selectedLanguage Tour.shown ∈ languages /\
  messages Tour.shown <> [] /\
  Forall (fun m => role m = lit "assistant" \/
                   (role m = lit "user" /\ translatedContent m = None))
         (messages Tour.shown).
Proof.
  exact (reachable_consistent Scenario.browserGroq (fun _ => True) Tour.shown
           (tour_reachable (fun _ => True) I)).
Defined.

Lemma reachable_wellFilled_witness :
  Forall (fun m => content m <> [] /\ translatedContent m <> Some [])
         (messages Tour.shown).
Proof.
  exact (reachable_wellFilled Scenario.browserGroq Tour.shown
           (tour_reachable translatesToText online_translatesToText)).
Defined.

Lemma reachable_toggle_twice_witness :
  messages Tour.shown !! 0 = Some (translatedMessage greeting Scenario.namaste) /\
  issued (toggleTranslation Scenario.offline 0 Tour.shown) = [] /\
  final (toggleTranslation Scenario.offline 0
           (final (toggleTranslation Scenario.offline 0 Tour.shown))) = Tour.shown.
Proof.
  assert (Hlang : selectedLanguage Tour.shown <> lit "en")
    by (vm_compute; discriminate).
  assert (Hm : messages Tour.shown !! 0 =
               Some (translatedMessage greeting Scenario.namaste)) by reflexivity.
  assert (Hcached : is_Some (translatedContent
                               (translatedMessage greeting Scenario.namaste)))
    by (eexists; reflexivity).
  pose proof (reachable_toggle_twice Scenario.browserGroq Scenario.offline 0
                Tour.shown _
                (tour_reachable translatesToText online_translatesToText)
                Hlang Hm Hcached) as (H1 & _ & H2).
  split; [exact Hm|]. split; [exact H1 | exact H2].
Defined.
